(** * Reservation admission of salagourmet

    A shallow embedding of [src/context/ReservationContext.tsx] (with the
    piece of [src/context/AuthContext.tsx] it reads): the weekly count of a
    flat's reservations, the admission of a new reservation, the
    cancellation of an existing one and the reload of the cached list.

    The component functions run against three collaborators that are not part
    of the repository: the Firestore collection ['reservations'], the toast
    notifier and the date-fns calendar functions.  The collection can fail
    at every request, so the operations are written in a small state and
    exception monad over a [World] that holds the collection, the React
    state, the toasts shown and a log of what was asked of the collection.
    What goes to [console.error] is left out. *)

From Stdlib Require Import ZArith String Ascii List Bool Lia DecimalString.
From Stdlib Require Import Permutation.
Import ListNotations.

Local Open Scope string_scope.
Local Open Scope Z_scope.

(** ** JavaScript dates *)

Module JsDate.

(** A [Date] is its time value in milliseconds, or Invalid Date ([NaN]).
    The time value is read on the local wall clock, which is the clock
    [getDay], [setDate] and [setHours] work on; changes of the zone
    offset are not modelled, and neither is the limit of 8.64e15 on the
    magnitude of a time value. *)
Definition t : Type := option Z.

Definition msPerDay : Z := 86400000.

(** Days since 1970-01-01, a Thursday. *)
Definition dayNumber (ms : Z) : Z := ms / msPerDay.

(** [Date.prototype.getDay]: 0 is Sunday, 1 is Monday, ..., 6 is Saturday. *)
Definition getDay (ms : Z) : Z := (dayNumber ms + 4) mod 7.

(** [d.setDate(d.getDate() + delta)]: same time of day, [delta] days on. *)
Definition addDate (ms delta : Z) : Z := ms + delta * msPerDay.

(** [d.setHours(h, m, s, milli)] *)
Definition setHours (ms h m s milli : Z) : Z :=
  dayNumber ms * msPerDay + ((h * 60 + m) * 60 + s) * 1000 + milli.

(** date-fns [startOfWeek(date, { weekStartsOn })]. *)
Definition startOfWeek (date : t) (weekStartsOn : Z) : t :=
  match date with
  | None => None
  | Some ms =>
      let day := getDay ms in
      let diff := (if day <? weekStartsOn then 7 else 0) + day - weekStartsOn in
      Some (setHours (addDate ms (- diff)) 0 0 0 0)
  end.

(** date-fns [endOfWeek(date, { weekStartsOn })]. *)
Definition endOfWeek (date : t) (weekStartsOn : Z) : t :=
  match date with
  | None => None
  | Some ms =>
      let day := getDay ms in
      let diff := (if day <? weekStartsOn then -7 else 0) + 6 - (day - weekStartsOn) in
      Some (setHours (addDate ms diff) 23 59 59 999)
  end.

(** [a >= b] and [a <= b] on dates compare the time values; a comparison
    with [NaN] is false. *)
Definition geb (a b : t) : bool :=
  match a, b with
  | Some x, Some y => y <=? x
  | _, _ => false
  end.

Definition leb (a b : t) : bool :=
  match a, b with
  | Some x, Some y => x <=? y
  | _, _ => false
  end.

End JsDate.

(** ** Data model *)

(** [status: 'confirmed'] *)
Inductive Status : Type := confirmed.

(** [interface Reservation] *)
Record Reservation : Type := mkReservation {
  id : string;
  portal : string;
  floor : string;
  door : string;
  date : string;
  status : Status;
  createdAt : Z;
  userId : string
}.

(** [Omit<Reservation, 'id' | 'createdAt' | 'userId'>], the argument of
    [createReservation]. *)
Record ReservationData : Type := mkData {
  data_portal : string;
  data_floor : string;
  data_door : string;
  data_date : string;
  data_status : Status
}.

(** The part of a Firebase [User] the component reads. *)
Record User : Type := mkUser { uid : string }.

(** ** The weekly count *)

Section Calendar.

(** date-fns [parseISO] and [String.prototype.toUpperCase] are taken as
    they come: nothing below depends on which strings parse or on how a
    character is upper-cased. *)
Variable parseISO : string -> JsDate.t.
Variable toUpperCase : string -> string.

(** The predicate of the [filter] in [getWeeklyApartmentReservationsCount]. *)
Definition inWeekOfApartment (weekStart weekEnd : JsDate.t)
    (portal0 floor0 door0 : string) (res : Reservation) : bool :=
  let resDate := parseISO (date res) in
  JsDate.geb resDate weekStart &&
  JsDate.leb resDate weekEnd &&
  String.eqb (portal res) portal0 &&
  String.eqb (floor res) floor0 &&
  String.eqb (toUpperCase (door res)) (toUpperCase door0).

Definition getWeeklyApartmentReservationsCount (reservations : list Reservation)
    (portal0 floor0 door0 date0 : string) : nat :=
  let reservationDate := parseISO date0 in
  let weekStart := JsDate.startOfWeek reservationDate 1 in
  let weekEnd := JsDate.endOfWeek reservationDate 1 in
  length (filter (inWeekOfApartment weekStart weekEnd portal0 floor0 door0)
                 reservations).

End Calendar.

(** ** Errors, notifications and the outside world *)

(** What an operation can throw.  The first three are the [new Error(...)]
    of [createReservation]; [StoreError] is whatever a Firestore call
    rejects with, kept as its message. *)
Inductive Error : Type :=
| Unauthenticated
| DateAlreadyReserved
| WeeklyQuotaExceeded
| StoreError (cause : string).

(** [error.message] *)
Definition message (error : Error) : string :=
  match error with
  | Unauthenticated => "Usuario no autenticado"
  | DateAlreadyReserved => "Esta fecha ya está reservada"
  | WeeklyQuotaExceeded =>
      "Esta vivienda ya ha alcanzado el límite de 2 reservas esta semana"
  | StoreError cause => cause
  end.

(** [a || b] on strings: the empty string is falsy. *)
Definition orElse (a b : string) : string :=
  match a with
  | EmptyString => b
  | _ => a
  end.

(** react-hot-toast. *)
Inductive Toast : Type :=
| toast_error (msg : string)
| toast_success (msg : string).

(** A request to the collection ['reservations']. *)
Inductive Request : Type :=
| AddDoc (data : ReservationData) (userId0 : string) (createdAt0 : Z)
| GetDocs
| DeleteDoc (id0 : string).

(** The collection's answer to a request: it rejects, or it serves the
    request ([autoId] is the identifier a served [addDoc] gives the new
    document; the other requests do not use it).  What it answers is not
    the component's to decide: [backend n rq] is the answer to [rq] made as
    the [n]-th request. *)
Inductive Reply : Type :=
| Fails (cause : string)
| Done (autoId : string).

Record World : Type := mkWorld {
  store : list Reservation;        (* the documents of the collection *)
  backend : nat -> Request -> Reply; (* its answers *)
  requests : list Request;         (* the requests made so far, oldest first *)
  clock : Z;                       (* what [Timestamp.now()] returns *)
  reservations : list Reservation; (* [useState<Reservation[]>([])] *)
  user : option User;              (* [useAuth().user] *)
  toasts : list Toast              (* the notifications shown, oldest first *)
}.

Definition withStore (docs : list Reservation) (w : World) : World :=
  mkWorld docs (backend w) (requests w) (clock w) (reservations w) (user w) (toasts w).

Definition withRequest (rq : Request) (w : World) : World :=
  mkWorld (store w) (backend w) (requests w ++ [rq]) (clock w) (reservations w)
          (user w) (toasts w).

Definition withReservations (rs : list Reservation) (w : World) : World :=
  mkWorld (store w) (backend w) (requests w) (clock w) rs (user w) (toasts w).

Definition withUser (u : option User) (w : World) : World :=
  mkWorld (store w) (backend w) (requests w) (clock w) (reservations w) u (toasts w).

Definition withToast (t : Toast) (w : World) : World :=
  mkWorld (store w) (backend w) (requests w) (clock w) (reservations w) (user w)
          (toasts w ++ [t]).

(** ** The monad of the component's async functions *)

(** How a call ends: the promise resolves with a value or rejects with an
    error. *)
Inductive Result (A : Type) : Type :=
| Ok (a : A)
| Throw (error : Error).

Arguments Ok {A} a.
Arguments Throw {A} error.

Definition M (A : Type) : Type := World -> Result A * World.

Definition ret {A : Type} (a : A) : M A := fun w => (Ok a, w).

Definition bind {A B : Type} (c : M A) (k : A -> M B) : M B :=
  fun w =>
    match c w with
    | (Ok a, w') => k a w'
    | (Throw error, w') => (Throw error, w')
    end.

Definition throw {A : Type} (error : Error) : M A := fun w => (Throw error, w).

(** [try { body } catch (error) { handler }] *)
Definition tryCatch {A : Type} (body : M A) (handler : Error -> M A) : M A :=
  fun w =>
    match body w with
    | (Ok a, w') => (Ok a, w')
    | (Throw error, w') => handler error w'
    end.

Declare Scope js_scope.
Delimit Scope js_scope with js.

Notation "x <- c ;; k" := (bind c (fun x => k))
  (at level 100, c at next level, right associativity) : js_scope.
Notation "c ;; k" := (bind c (fun _ => k))
  (at level 100, right associativity) : js_scope.
Notation "'try' body 'catch' handler" := (tryCatch body handler)
  (at level 100, body at level 99, handler at level 99) : js_scope.

Local Open Scope js_scope.

Definition getWorld : M World := fun w => (Ok w, w).

Definition toast (t : Toast) : M unit := fun w => (Ok tt, withToast t w).

(** [setReservations] *)
Definition setReservations (rs : list Reservation) : M unit :=
  fun w => (Ok tt, withReservations rs w).

(** [setUser], called by the [onAuthStateChanged] listener of AuthContext. *)
Definition setUser (u : option User) : M unit :=
  fun w => (Ok tt, withUser u w).

(** [Timestamp.now()] *)
Definition Timestamp_now : M Z := fun w => (Ok (clock w), w).

(** The document [{ id: doc.id, ...doc.data() }] that a served [addDoc] of
    [{ ...data, userId, createdAt }] leaves in the collection. *)
Definition document (newId : string) (data : ReservationData)
    (userId0 : string) (createdAt0 : Z) : Reservation :=
  mkReservation newId (data_portal data) (data_floor data) (data_door data)
                (data_date data) (data_status data) createdAt0 userId0.

(** [await addDoc(reservationsRef, { ...data, userId, createdAt })] *)
Definition addDoc (data : ReservationData) (userId0 : string) (createdAt0 : Z)
    : M string :=
  fun w =>
    let rq := AddDoc data userId0 createdAt0 in
    let w' := withRequest rq w in
    match backend w (length (requests w)) rq with
    | Fails cause => (Throw (StoreError cause), w')
    | Done newId =>
        (Ok newId, withStore (store w ++ [document newId data userId0 createdAt0]) w')
    end.

(** [await getDocs(query(reservationsRef))], mapped to [Reservation[]] *)
Definition getDocs : M (list Reservation) :=
  fun w =>
    let w' := withRequest GetDocs w in
    match backend w (length (requests w)) GetDocs with
    | Fails cause => (Throw (StoreError cause), w')
    | Done _ => (Ok (store w), w')
    end.

(** [await deleteDoc(doc(db, 'reservations', id))] *)
Definition deleteDoc (id0 : string) : M unit :=
  fun w =>
    let w' := withRequest (DeleteDoc id0) w in
    match backend w (length (requests w)) (DeleteDoc id0) with
    | Fails cause => (Throw (StoreError cause), w')
    | Done _ =>
        (Ok tt, withStore (filter (fun r => negb (String.eqb (id r) id0)) (store w)) w')
    end.

(** ** The provider's functions *)

(** The functions of a render close over that render's [reservations] and
    [user]; the component is rendered again after every state change, so a
    call reads the state as it is when the call starts. *)

(** [loadReservations] *)
Definition loadReservations : M unit :=
  try (loadedReservations <- getDocs ;;
       setReservations loadedReservations)
  catch (fun error => toast (toast_error "Error al cargar las reservas")).

Section Provider.

Variable parseISO : string -> JsDate.t.
Variable toUpperCase : string -> string.

(** [createReservation] *)
Definition createReservation (data : ReservationData) : M unit :=
  w <- getWorld ;;
  match user w with
  | None =>
      toast (toast_error "Debes iniciar sesión para hacer una reserva") ;;
      throw Unauthenticated
  | Some user0 =>
      try (
        let existingReservation :=
          find (fun r => String.eqb (date r) (data_date data)) (reservations w) in
        match existingReservation with
        | Some _ => throw DateAlreadyReserved
        | None =>
            let weeklyReservationsCount :=
              getWeeklyApartmentReservationsCount parseISO toUpperCase
                (reservations w)
                (data_portal data) (data_floor data) (data_door data)
                (data_date data) in
            if (2 <=? weeklyReservationsCount)%nat
            then throw WeeklyQuotaExceeded
            else
              now <- Timestamp_now ;;
              _ <- addDoc data (uid user0) now ;;
              loadReservations
        end)
      catch (fun error =>
        toast (toast_error (orElse (message error) "Error al crear la reserva")) ;;
        throw error)
  end.

End Provider.

(** [cancelReservation] *)
Definition cancelReservation (id0 : string) : M unit :=
  w <- getWorld ;;
  match user w with
  | None => toast (toast_error "Debes iniciar sesión para cancelar una reserva")
  | Some user0 =>
      match find (fun r => String.eqb (id r) id0) (reservations w) with
      | None => toast (toast_error "Reserva no encontrada")
      | Some reservation =>
          if negb (String.eqb (userId reservation) (uid user0))
          then toast (toast_error "Solo puedes cancelar tus propias reservas")
          else
            try (deleteDoc id0 ;;
                 toast (toast_success "Reserva cancelada con éxito") ;;
                 loadReservations)
            catch (fun error => toast (toast_error "Error al cancelar la reserva"))
      end
  end.

(** What happens to a mounted provider, one event at a time. *)
Inductive Event : Type :=
| Create (data : ReservationData)
| Cancel (id0 : string)
| Reload
| AuthStateChanged (u : option User).

Section Runs.

Variable parseISO : string -> JsDate.t.
Variable toUpperCase : string -> string.

Definition handle (ev : Event) : M unit :=
  match ev with
  | Create data => createReservation parseISO toUpperCase data
  | Cancel id0 => cancelReservation id0
  | Reload => loadReservations
  | AuthStateChanged u => setUser u
  end.

(** The world after a sequence of events, each one handled to its end
    before the next starts; an event that throws leaves the world it
    threw in. *)
Fixpoint run (evs : list Event) (w : World) : World :=
  match evs with
  | [] => w
  | ev :: evs' => run evs' (snd (handle ev w))
  end.

End Runs.

(** ** What the specification says, in its own words *)

(** The day number of the Monday on or before the day of [ms]. *)
Definition mondayOf (ms : Z) : Z :=
  JsDate.dayNumber ms - (JsDate.getDay ms + 6) mod 7.

(** [resDate] falls on a day of the Monday-through-Sunday calendar week
    that contains [target]. *)
Definition inCalendarWeekOf (target resDate : JsDate.t) : bool :=
  match target, resDate with
  | Some ms, Some ms' =>
      (mondayOf ms <=? JsDate.dayNumber ms') &&
      (JsDate.dayNumber ms' <=? mondayOf ms + 6)
  | _, _ => false
  end.

Section Specification.

Variable parseISO : string -> JsDate.t.
Variable toUpperCase : string -> string.

(** The unit of a reservation is (portal, floor, door): portal and floor as
    they are written, the door without regard to letter case. *)
Definition sameUnit (portal0 floor0 door0 : string) (r : Reservation) : bool :=
  String.eqb (portal r) portal0 &&
  String.eqb (floor r) floor0 &&
  String.eqb (toUpperCase (door r)) (toUpperCase door0).

(** The number of reservations of a unit dated within the calendar week of
    [target]. *)
Definition countInWeek (rs : list Reservation) (portal0 floor0 door0 : string)
    (target : JsDate.t) : nat :=
  length (filter (fun r => inCalendarWeekOf target (parseISO (date r)) &&
                           sameUnit portal0 floor0 door0 r) rs).

(** [countWeekly] of the QuotaCalculator. *)
Definition countWeekly (rs : list Reservation) (portal0 floor0 door0 date0 : string)
    : nat :=
  countInWeek rs portal0 floor0 door0 (parseISO date0).

(** I1: no two reservations have the same [date]. *)
Definition I1 (rs : list Reservation) : Prop := NoDup (map date rs).

(** I2: no unit has more than two reservations in any Monday-starting week
    (a week is given by any instant in it). *)
Definition I2 (rs : list Reservation) : Prop :=
  forall (portal0 floor0 door0 : string) (ms : Z),
    (countInWeek rs portal0 floor0 door0 (Some ms) <= 2)%nat.

End Specification.

(** The cached list is the collection's content, as after a served reload. *)
Definition synced (w : World) : Prop := reservations w = store w.

(** The collection serves every listing. *)
Definition listingServed (w : World) : Prop :=
  forall n, exists i, backend w n GetDocs = Done i.

Section Consistency.

Variable parseISO : string -> JsDate.t.
Variable toUpperCase : string -> string.

(** The invariant of a provider whose collection serves every listing. *)
Definition Consistent (w : World) : Prop :=
  listingServed w /\ synced w /\ I1 (store w) /\ I2 parseISO toUpperCase (store w).

End Consistency.

(** ** Models of the library functions, for concrete runs *)

(** [String.prototype.toUpperCase] on ASCII text: the letters [a]-[z] go to
    [A]-[Z], every other character stays.  JavaScript also upper-cases the
    letters outside ASCII; this model does not, and stands for it on ASCII
    labels only.  What is stated of upper-casing in general is stated for
    every function [toUpperCase], this one included. *)
Definition upper (c : ascii) : ascii :=
  let n := nat_of_ascii c in
  if ((97 <=? n) && (n <=? 122))%nat then ascii_of_nat (n - 32) else c.

Fixpoint toUpperCase_ascii (s : string) : string :=
  match s with
  | EmptyString => EmptyString
  | String c s' => String (upper c) (toUpperCase_ascii s')
  end.




Definition withDate (date0 : string) (r : Reservation) : Reservation :=
  mkReservation (id r) (portal r) (floor r) (door r) date0 (status r)
                (createdAt r) (userId r).



(** The value of a decimal digit. *)
Definition digit (c : ascii) : option Z :=
  let n := nat_of_ascii c in
  if ((48 <=? n) && (n <=? 57))%nat then Some (Z.of_nat (n - 48)) else None.

(** The number written by a run of digits, continuing from [acc]. *)
Fixpoint number (cs : list ascii) (acc : Z) : option Z :=
  match cs with
  | [] => Some acc
  | c :: cs' =>
      match digit c with
      | Some d => number cs' (10 * acc + d)
      | None => None
      end
  end.

(** [-?] at the head of what is left to read. *)
Definition skipHyphen (cs : list ascii) : list ascii :=
  match cs with
  | c :: cs' => if Ascii.eqb c "-" then cs' else cs
  | [] => []
  end.

(** date-fns [isLeapYearIndex] and its table [DAYS_IN_MONTH]. *)
Definition isLeapYearIndex (year : Z) : bool :=
  (year mod 400 =? 0) || ((year mod 4 =? 0) && negb (year mod 100 =? 0)).

Definition daysInMonth (year month : Z) : Z :=
  if month =? 2 then (if isLeapYearIndex year then 29 else 28)
  else if (month =? 4) || (month =? 6) || (month =? 9) || (month =? 11) then 30
  else 31.

(** Leap years among the years 1 .. [year]-1. *)
Definition leapsBefore (year : Z) : Z :=
  (year - 1) / 4 - (year - 1) / 100 + (year - 1) / 400.

Fixpoint daysBeforeMonth (year : Z) (months : nat) : Z :=
  match months with
  | O => 0
  | S k => daysBeforeMonth year k + daysInMonth year (Z.of_nat (S k))
  end.

(** Days from 1970-01-01 to the given day. *)
Definition daysFromCivil (year month day : Z) : Z :=
  365 * (year - 1970) + (leapsBefore year - leapsBefore 1970)
  + daysBeforeMonth year (Z.to_nat (month - 1)) + (day - 1).

(** date-fns [parseISO] on complete calendar dates, [YYYY-MM-DD] and
    [YYYYMMDD] (each hyphen may be left out): the result is the local
    midnight that starts the day, or Invalid Date when month or day is out
    of range.  The ISO forms this model leaves out (week dates, ordinal
    dates, a year or a year and month alone, a time part) come out as Invalid
    Date here; the model is used on complete calendar dates only. *)
Definition parseISO_calendar (s : string) : JsDate.t :=
  let cs := list_ascii_of_string s in
  let rest := skipHyphen (skipn 4 cs) in
  let rest' := skipHyphen (skipn 2 rest) in
  match number (firstn 4 cs) 0, number (firstn 2 rest) 0, number rest' 0 with
  | Some year, Some month, Some day =>
      if (length (firstn 4 cs) =? 4)%nat && (length (firstn 2 rest) =? 2)%nat &&
         (length rest' =? 2)%nat &&
         (1 <=? month) && (month <=? 12) &&
         (1 <=? day) && (day <=? daysInMonth year month)
      then Some (daysFromCivil year month day * JsDate.msPerDay)
      else None
  | _, _, _ => None
  end.

(** ** The checks of [createReservation], named *)

(** [existingReservation]: the first cached reservation with the requested
    [date], compared as strings. *)
Definition taken (data : ReservationData) (w : World) : option Reservation :=
  find (fun r => String.eqb (date r) (data_date data)) (reservations w).

(** [reservation] of [cancelReservation]: the first cached reservation with
    the given [id]. *)
Definition found (id0 : string) (w : World) : option Reservation :=
  find (fun r => String.eqb (id r) id0) (reservations w).

Section Checks.

Variable parseISO : string -> JsDate.t.
Variable toUpperCase : string -> string.

(** [weeklyReservationsCount] *)
Definition weekly (data : ReservationData) (w : World) : nat :=
  getWeeklyApartmentReservationsCount parseISO toUpperCase (reservations w)
    (data_portal data) (data_floor data) (data_door data) (data_date data).

End Checks.

(** ** Scenarios *)

Definition userX : User := mkUser "X".
Definition userY : User := mkUser "Y".

(** A collection that serves every request and names the document of the
    [n]-th request [doc<n>]. *)
Definition docId (n : nat) : string :=
  "doc" ++ NilEmpty.string_of_uint (Nat.to_uint n).

Definition serving : nat -> Request -> Reply := fun n _ => Done (docId n).

(** A collection that stores and deletes but whose listing is down. *)
Definition listingDown : nat -> Request -> Reply :=
  fun n rq =>
    match rq with
    | GetDocs => Fails "unavailable"
    | _ => Done (docId n)
    end.

(** A collection that rejects every deletion, with its listing and its
    additions up. *)
Definition deletingDown : nat -> Request -> Reply :=
  fun n rq =>
    match rq with
    | DeleteDoc _ => Fails "unavailable"
    | _ => Done (docId n)
    end.

(** A collection that rejects every addition. *)
Definition addingDown : nat -> Request -> Reply :=
  fun n rq =>
    match rq with
    | AddDoc _ _ _ => Fails "unavailable"
    | _ => Done (docId n)
    end.

(** A provider whose cache holds the collection's content. *)
Definition loaded (docs : list Reservation) (answers : nat -> Request -> Reply)
    (u : option User) : World :=
  mkWorld docs answers [] 0 docs u [].

Definition flatP1_2A (date0 : string) : ReservationData :=
  mkData "P1" "2" "A" date0 confirmed.

Definition flatP1_3B (date0 : string) : ReservationData :=
  mkData "P1" "3" "B" date0 confirmed.

(** A stored reservation of [u], as [addDoc] would have left it. *)
Definition booked (id0 : string) (data : ReservationData) (u : User) : Reservation :=
  document id0 data (uid u) 0.

(** 2024-01-01 is a Monday. *)
Definition monday : Reservation := booked "r1" (flatP1_2A "2024-01-01") userX.
Definition wednesday : Reservation := booked "r2" (flatP1_2A "2024-01-03") userX.
Definition sunday : Reservation := booked "r3" (flatP1_2A "2024-01-07") userX.
Definition nextMonday : Reservation := booked "r4" (flatP1_2A "2024-01-08") userX.


(** Providers in the states the scenarios start from. *)
Definition emptyServing : World := loaded [] serving (Some userX).
Definition emptyListingDown : World := loaded [] listingDown (Some userX).
Definition emptyAddingDown : World := loaded [] addingDown (Some userX).
Definition signedOut : World := loaded [monday] serving None.
Definition mondayOfX (u : User) : World := loaded [monday] serving (Some u).
Definition mondayDeletingDown : World := loaded [monday] deletingDown (Some userX).
Definition mondayWednesday : World := loaded [monday; wednesday] serving (Some userX).

(** Monday's reservation cached and stored, with the listing down. *)
Definition mondayListingDown : World := loaded [monday] listingDown (Some userX).

(** A cache that has fallen behind the collection, with the listing down. *)
Definition staleListingDown : World :=
  mkWorld [monday; wednesday] listingDown [] 0 [monday] (Some userX) [].

(** The model of the libraries the scenarios run with. *)
Definition createIn (data : ReservationData) (w : World) : Result unit * World :=
  createReservation parseISO_calendar toUpperCase_ascii data w.

Definition countIn (rs : list Reservation) (portal0 floor0 door0 date0 : string) : nat :=
  getWeeklyApartmentReservationsCount parseISO_calendar toUpperCase_ascii
    rs portal0 floor0 door0 date0.

(** ** The provider when it mounts *)

(** [ReservationProvider] starts with [useState<Reservation[]>([])]: an
    empty cache, whatever the collection holds. *)
Definition provider (docs : list Reservation) (answers : nat -> Request -> Reply)
    (u : option User) : World :=
  mkWorld docs answers [] 0 [] u [].

(** The provider after its mount effect,
    [useEffect(() => { loadReservations(); }, [])]. *)
Definition mountProvider (docs : list Reservation)
    (answers : nat -> Request -> Reply) (u : option User) : World :=
  snd (loadReservations (provider docs answers u)).

(** ** AuthContext *)

Module Auth.

(** What a Firebase Auth call rejects with; [signUp] reads its [code]. *)
Record AuthError : Type := mkAuthError { code : string }.

(** The calls [AuthProvider] makes to Firebase Auth. *)
Inductive Call : Type :=
| CreateUserWithEmailAndPassword (email password : string)
| SignInWithEmailAndPassword (email password : string)
| SignOut.

(** The service's answer to a call. *)
Inductive Answer : Type :=
| Refused (error : AuthError)
| Granted.

(** The state of [AuthProvider], the toasts shown and the calls made;
    [service n c] is the answer to [c] made as the [n]-th call. *)
Record State : Type := mkState {
  user : option User;              (* [useState<User | null>(null)] *)
  loading : bool;                  (* [useState(true)] *)
  toasts : list Toast;
  calls : list Call;
  service : nat -> Call -> Answer
}.

(** How a call of [signUp], [signIn] or [logout] ends. *)
Inductive Outcome : Type :=
| Resolved
| Rejected (error : AuthError).

(** The provider as it is first rendered. *)
Definition initial (answers : nat -> Call -> Answer) : State :=
  mkState None true [] [] answers.

Definition notify (t : Toast) (s : State) : State :=
  mkState (user s) (loading s) (toasts s ++ [t]) (calls s) (service s).

(** [await] of a Firebase Auth call. *)
Definition await (c : Call) (s : State) : Answer * State :=
  (service s (length (calls s)) c,
   mkState (user s) (loading s) (toasts s) (calls s ++ [c]) (service s)).

(** The listener given to [onAuthStateChanged]:
    [setUser(user); setLoading(false)]. *)
Definition listener (u : option User) (s : State) : State :=
  mkState u false (toasts s) (calls s) (service s).

(** [signUp] *)
Definition signUp (email password : string) (s : State) : Outcome * State :=
  match await (CreateUserWithEmailAndPassword email password) s with
  | (Granted, s') => (Resolved, notify (toast_success "Cuenta creada con éxito") s')
  | (Refused error, s') =>
      (Rejected error,
       if String.eqb (code error) "auth/email-already-in-use"
       then notify (toast_error "Este email ya está registrado") s'
       else notify (toast_error "Error al crear la cuenta") s')
  end.

(** [signIn] *)
Definition signIn (email password : string) (s : State) : Outcome * State :=
  match await (SignInWithEmailAndPassword email password) s with
  | (Granted, s') => (Resolved, notify (toast_success "Sesión iniciada con éxito") s')
  | (Refused error, s') =>
      (Rejected error, notify (toast_error "Email o contraseña incorrectos") s')
  end.

(** [logout] *)
Definition logout (s : State) : Outcome * State :=
  match await SignOut s with
  | (Granted, s') => (Resolved, notify (toast_success "Sesión cerrada con éxito") s')
  | (Refused error, s') =>
      (Rejected error, notify (toast_error "Error al cerrar sesión") s')
  end.

(** [{!loading && children}]: whether the children are rendered. *)
Definition rendersChildren (s : State) : bool := negb (loading s).

(** What happens to a mounted [AuthProvider]. *)
Inductive Event : Type :=
| SignUp (email password : string)
| SignIn (email password : string)
| Logout
| StateChanged (u : option User).

Definition handle (ev : Event) (s : State) : State :=
  match ev with
  | SignUp email password => snd (signUp email password s)
  | SignIn email password => snd (signIn email password s)
  | Logout => snd (logout s)
  | StateChanged u => listener u s
  end.

Fixpoint run (evs : list Event) (s : State) : State :=
  match evs with
  | [] => s
  | ev :: evs' => run evs' (handle ev s)
  end.

(** The user the last [StateChanged] of a sequence reports, if there is one. *)
Fixpoint lastReported (evs : list Event) : option (option User) :=
  match evs with
  | [] => None
  | ev :: evs' =>
      match lastReported evs', ev with
      | Some u, _ => Some u
      | None, StateChanged u => Some u
      | None, _ => None
      end
  end.

(** A service that grants every call, and one that refuses every call with
    the given code. *)
Definition granting : nat -> Call -> Answer := fun _ _ => Granted.

Definition refusing (code0 : string) : nat -> Call -> Answer :=
  fun _ _ => Refused (mkAuthError code0).

End Auth.

(** * Properties *)

(** ** The week window of date-fns *)

Lemma getDay_range (ms : Z) : 0 <= JsDate.getDay ms < 7.
Proof. unfold JsDate.getDay. apply Z.mod_pos_bound. lia. Qed.

Lemma dayNumber_addDate (ms delta : Z) :
  JsDate.dayNumber (JsDate.addDate ms delta) = JsDate.dayNumber ms + delta.
Proof.
  unfold JsDate.dayNumber, JsDate.addDate, JsDate.msPerDay.
  apply Z.div_add. lia.
Qed.

Lemma startOfWeek_monday (ms : Z) :
  JsDate.startOfWeek (Some ms) 1 = Some (mondayOf ms * JsDate.msPerDay).
Proof.
  unfold JsDate.startOfWeek, JsDate.setHours, mondayOf.
  rewrite dayNumber_addDate.
  pose proof (getDay_range ms) as Hd.
  f_equal.
  destruct (Z.ltb_spec (JsDate.getDay ms) 1) as [Hlt | Hge].
  - assert (JsDate.getDay ms = 0) as -> by lia.
    replace ((0 + 6) mod 7) with 6 by reflexivity. lia.
  - replace ((JsDate.getDay ms + 6) mod 7) with (JsDate.getDay ms - 1).
    + lia.
    + apply Z.mod_unique with (q := 1); lia.
Qed.

Lemma endOfWeek_sunday (ms : Z) :
  JsDate.endOfWeek (Some ms) 1 =
  Some ((mondayOf ms + 6) * JsDate.msPerDay + (JsDate.msPerDay - 1)).
Proof.
  unfold JsDate.endOfWeek, JsDate.setHours, mondayOf.
  rewrite dayNumber_addDate.
  pose proof (getDay_range ms) as Hd.
  f_equal.
  destruct (Z.ltb_spec (JsDate.getDay ms) 1) as [Hlt | Hge].
  - assert (JsDate.getDay ms = 0) as -> by lia.
    replace ((0 + 6) mod 7) with 6 by reflexivity. unfold JsDate.msPerDay. lia.
  - replace ((JsDate.getDay ms + 6) mod 7) with (JsDate.getDay ms - 1).
    + unfold JsDate.msPerDay. lia.
    + apply Z.mod_unique with (q := 1); lia.
Qed.

Lemma dayNumber_ge (ms k : Z) :
  k * JsDate.msPerDay <= ms <-> k <= JsDate.dayNumber ms.
Proof.
  unfold JsDate.dayNumber, JsDate.msPerDay.
  pose proof (Z.div_mod ms 86400000 ltac:(lia)) as E.
  pose proof (Z.mod_pos_bound ms 86400000 ltac:(lia)) as B.
  split; intros H; nia.
Qed.

Lemma dayNumber_le (ms k : Z) :
  ms <= k * JsDate.msPerDay + (JsDate.msPerDay - 1) <-> JsDate.dayNumber ms <= k.
Proof.
  unfold JsDate.dayNumber, JsDate.msPerDay.
  pose proof (Z.div_mod ms 86400000 ltac:(lia)) as E.
  pose proof (Z.mod_pos_bound ms 86400000 ltac:(lia)) as B.
  split; intros H; nia.
Qed.

(** The two comparisons of the filter say that the reservation's day lies in
    the calendar week of the target. *)
Lemma window_calendar (target resDate : JsDate.t) :
  JsDate.geb resDate (JsDate.startOfWeek target 1) &&
  JsDate.leb resDate (JsDate.endOfWeek target 1) =
  inCalendarWeekOf target resDate.
Proof.
  destruct target as [ms |], resDate as [ms' |]; try reflexivity.
  - rewrite startOfWeek_monday, endOfWeek_sunday. simpl.
    apply eq_true_iff_eq.
    rewrite !andb_true_iff, !Z.leb_le, dayNumber_ge, dayNumber_le. tauto.
Qed.

(** The Monday of a week is a Monday, and the week of an instant contains it. *)
Lemma mondayOf_is_monday (ms : Z) :
  JsDate.getDay (mondayOf ms * JsDate.msPerDay) = 1.
Proof.
  unfold JsDate.getDay at 1. unfold JsDate.dayNumber at 1.
  rewrite Z.div_mul by (unfold JsDate.msPerDay; lia).
  unfold mondayOf, JsDate.getDay.
  set (d := JsDate.dayNumber ms).
  pose proof (Z.div_mod (d + 4) 7 ltac:(lia)) as E.
  pose proof (Z.mod_pos_bound (d + 4) 7 ltac:(lia)) as B.
  set (g := (d + 4) mod 7) in *.
  pose proof (Z.div_mod (g + 6) 7 ltac:(lia)) as E'.
  pose proof (Z.mod_pos_bound (g + 6) 7 ltac:(lia)) as B'.
  symmetry. apply Z.mod_unique with (q := (d + 4) / 7 + (g + 6) / 7 - 1); lia.
Qed.

Lemma mondayOf_bounds (ms : Z) :
  mondayOf ms <= JsDate.dayNumber ms <= mondayOf ms + 6.
Proof.
  unfold mondayOf.
  pose proof (Z.mod_pos_bound (JsDate.getDay ms + 6) 7 ltac:(lia)). lia.
Qed.

(** Every instant of a week has the same Monday. *)
Lemma mondayOf_of_week (ms ms' : Z) :
  mondayOf ms <= JsDate.dayNumber ms' <= mondayOf ms + 6 ->
  mondayOf ms' = mondayOf ms.
Proof.
  intros H.
  pose proof (mondayOf_bounds ms') as B'.
  pose proof (mondayOf_is_monday ms) as M.
  pose proof (mondayOf_is_monday ms') as M'.
  unfold JsDate.getDay, JsDate.dayNumber in M, M'.
  rewrite Z.div_mul in M, M' by (unfold JsDate.msPerDay; lia).
  pose proof (Z.div_mod (mondayOf ms + 4) 7 ltac:(lia)) as E.
  pose proof (Z.div_mod (mondayOf ms' + 4) 7 ltac:(lia)) as E'.
  lia.
Qed.

(** ** The weekly count *)

Section CountProperties.

Variable parseISO : string -> JsDate.t.
Variable toUpperCase : string -> string.

Local Abbreviation getCount := (getWeeklyApartmentReservationsCount parseISO toUpperCase).
Local Abbreviation specCount := (countWeekly parseISO toUpperCase).

Lemma inWeekOfApartment_calendar (target : JsDate.t) (p f d : string) (r : Reservation) :
  inWeekOfApartment parseISO toUpperCase
    (JsDate.startOfWeek target 1) (JsDate.endOfWeek target 1) p f d r =
  inCalendarWeekOf target (parseISO (date r)) && sameUnit toUpperCase p f d r.
Proof.
  unfold inWeekOfApartment, sameUnit.
  rewrite window_calendar, !andb_assoc. reflexivity.
Qed.

Lemma getCount_countInWeek (rs : list Reservation) (p f d date0 : string) :
  getCount rs p f d date0 = countInWeek parseISO toUpperCase rs p f d (parseISO date0).
Proof.
  unfold getWeeklyApartmentReservationsCount, countInWeek.
  f_equal. apply filter_ext. intros r. apply inWeekOfApartment_calendar.
Qed.

Lemma countInWeek_cons (r : Reservation) (rs : list Reservation)
    (p f d : string) (target : JsDate.t) :
  countInWeek parseISO toUpperCase (r :: rs) p f d target =
  ((if inCalendarWeekOf target (parseISO (date r)) && sameUnit toUpperCase p f d r
    then 1 else 0) + countInWeek parseISO toUpperCase rs p f d target)%nat.
Proof.
  unfold countInWeek. simpl.
  destruct (inCalendarWeekOf target (parseISO (date r)) && sameUnit toUpperCase p f d r);
    reflexivity.
Qed.

Lemma countInWeek_app (rs rs' : list Reservation) (p f d : string) (target : JsDate.t) :
  countInWeek parseISO toUpperCase (rs ++ rs') p f d target =
  (countInWeek parseISO toUpperCase rs p f d target +
   countInWeek parseISO toUpperCase rs' p f d target)%nat.
Proof.
  unfold countInWeek. rewrite filter_app, length_app. reflexivity.
Qed.

(** C2.  The count that [getWeeklyApartmentReservationsCount] returns is the
    number of reservations dated in the Monday-through-Sunday calendar week
    of the target date whose portal and floor are the arguments and whose
    door is the argument up to letter case.  In particular, with the target
    in a week that starts on the Monday [mondayOf ms], a reservation of the
    unit dated that Monday or the Sunday six days later adds one to the
    count, and one dated the Monday after adds nothing. *)
Theorem getWeeklyApartmentReservationsCount_exact
    (rs : list Reservation) (p f d date0 : string) :
  getCount rs p f d date0 = specCount rs p f d date0 /\
  forall (r : Reservation) (ms ms' : Z),
    parseISO date0 = Some ms ->
    parseISO (date r) = Some ms' ->
    sameUnit toUpperCase p f d r = true ->
    JsDate.getDay (mondayOf ms * JsDate.msPerDay) = 1 /\
    (JsDate.dayNumber ms' = mondayOf ms ->
       getCount (r :: rs) p f d date0 = S (getCount rs p f d date0)) /\
    (JsDate.dayNumber ms' = mondayOf ms + 6 ->
       getCount (r :: rs) p f d date0 = S (getCount rs p f d date0)) /\
    (JsDate.dayNumber ms' = mondayOf ms + 7 ->
       getCount (r :: rs) p f d date0 = getCount rs p f d date0).
Proof.
  split.
  - apply getCount_countInWeek.
  - intros r ms ms' Hd Hr Hu.
    split; [apply mondayOf_is_monday |].
    rewrite !getCount_countInWeek, countInWeek_cons, Hd, Hr, Hu, andb_true_r.
    unfold inCalendarWeekOf.
    repeat split; intros ->.
    + replace (_ && _) with true; [reflexivity |].
      symmetry. rewrite andb_true_iff, !Z.leb_le. lia.
    + replace (_ && _) with true; [reflexivity |].
      symmetry. rewrite andb_true_iff, !Z.leb_le. lia.
    + replace (_ && _) with false; [reflexivity |].
      symmetry. rewrite andb_false_iff, !Z.leb_gt. lia.
Qed.

End CountProperties.

(** ** The operations, case by case *)

Lemma loadReservations_served (w : World) (i : string) :
  backend w (length (requests w)) GetDocs = Done i ->
  loadReservations w = (Ok tt, withReservations (store w) (withRequest GetDocs w)).
Proof.
  intros H. unfold loadReservations, tryCatch, bind, getDocs, setReservations.
  rewrite H. reflexivity.
Qed.

Lemma loadReservations_failed (w : World) (cause : string) :
  backend w (length (requests w)) GetDocs = Fails cause ->
  loadReservations w =
  (Ok tt, withToast (toast_error "Error al cargar las reservas") (withRequest GetDocs w)).
Proof.
  intros H. unfold loadReservations, tryCatch, bind, getDocs, toast.
  rewrite H. reflexivity.
Qed.

Lemma loadReservations_resolves (w : World) : fst (loadReservations w) = Ok tt.
Proof.
  destruct (backend w (length (requests w)) GetDocs) as [cause | i] eqn:E.
  - rewrite (loadReservations_failed w cause E). reflexivity.
  - rewrite (loadReservations_served w i E). reflexivity.
Qed.

Section CreateCases.

Variable parseISO : string -> JsDate.t.
Variable toUpperCase : string -> string.

Local Abbreviation create := (createReservation parseISO toUpperCase).
Local Abbreviation weeklyCount := (weekly parseISO toUpperCase).

Lemma create_unauthenticated (data : ReservationData) (w : World) :
  user w = None ->
  create data w =
  (Throw Unauthenticated,
   withToast (toast_error "Debes iniciar sesión para hacer una reserva") w).
Proof.
  intros H. unfold createReservation, bind, getWorld. rewrite H. reflexivity.
Qed.

Lemma create_taken (data : ReservationData) (w : World) (u : User) (r : Reservation) :
  user w = Some u ->
  taken data w = Some r ->
  create data w =
  (Throw DateAlreadyReserved, withToast (toast_error "Esta fecha ya está reservada") w).
Proof.
  intros Hu Ht. unfold taken in Ht.
  unfold createReservation, bind, getWorld, tryCatch. rewrite Hu, Ht. reflexivity.
Qed.

Lemma create_quota (data : ReservationData) (w : World) (u : User) :
  user w = Some u ->
  taken data w = None ->
  (2 <= weeklyCount data w)%nat ->
  create data w =
  (Throw WeeklyQuotaExceeded,
   withToast (toast_error
     "Esta vivienda ya ha alcanzado el límite de 2 reservas esta semana") w).
Proof.
  intros Hu Ht Hq. unfold taken in Ht. unfold weekly in Hq.
  apply Nat.leb_le in Hq.
  unfold createReservation, bind, getWorld, tryCatch. rewrite Hu, Ht, Hq. reflexivity.
Qed.

Lemma create_store_fails (data : ReservationData) (w : World) (u : User)
    (cause : string) :
  user w = Some u ->
  taken data w = None ->
  (weeklyCount data w < 2)%nat ->
  backend w (length (requests w)) (AddDoc data (uid u) (clock w)) = Fails cause ->
  create data w =
  (Throw (StoreError cause),
   withToast (toast_error (orElse cause "Error al crear la reserva"))
     (withRequest (AddDoc data (uid u) (clock w)) w)).
Proof.
  intros Hu Ht Hq Hb. unfold taken in Ht. unfold weekly in Hq.
  apply Nat.leb_gt in Hq.
  unfold createReservation, bind, getWorld, tryCatch, Timestamp_now, addDoc.
  rewrite Hu, Ht, Hq, Hb. reflexivity.
Qed.

Lemma create_added (data : ReservationData) (w : World) (u : User) (newId : string) :
  user w = Some u ->
  taken data w = None ->
  (weeklyCount data w < 2)%nat ->
  backend w (length (requests w)) (AddDoc data (uid u) (clock w)) = Done newId ->
  create data w =
  loadReservations
    (withStore (store w ++ [document newId data (uid u) (clock w)])
       (withRequest (AddDoc data (uid u) (clock w)) w)).
Proof.
  intros Hu Ht Hq Hb. unfold taken in Ht. unfold weekly in Hq.
  apply Nat.leb_gt in Hq.
  unfold createReservation, bind, getWorld, tryCatch, Timestamp_now, addDoc.
  rewrite Hu, Ht, Hq, Hb.
  match goal with |- context [loadReservations ?w'] =>
    pose proof (loadReservations_resolves w') as E;
    destruct (loadReservations w') as [[[] | e] w'']; simpl in E; [reflexivity | discriminate]
  end.
Qed.

End CreateCases.

Lemma cancel_unauthenticated (id0 : string) (w : World) :
  user w = None ->
  cancelReservation id0 w =
  (Ok tt, withToast (toast_error "Debes iniciar sesión para cancelar una reserva") w).
Proof.
  intros H. unfold cancelReservation, bind, getWorld. rewrite H. reflexivity.
Qed.

Lemma cancel_not_found (id0 : string) (w : World) (u : User) :
  user w = Some u ->
  found id0 w = None ->
  cancelReservation id0 w = (Ok tt, withToast (toast_error "Reserva no encontrada") w).
Proof.
  intros Hu Hf. unfold found in Hf.
  unfold cancelReservation, bind, getWorld. rewrite Hu, Hf. reflexivity.
Qed.

Lemma cancel_forbidden (id0 : string) (w : World) (u : User) (r : Reservation) :
  user w = Some u ->
  found id0 w = Some r ->
  userId r <> uid u ->
  cancelReservation id0 w =
  (Ok tt, withToast (toast_error "Solo puedes cancelar tus propias reservas") w).
Proof.
  intros Hu Hf Ho. unfold found in Hf. apply String.eqb_neq in Ho.
  unfold cancelReservation, bind, getWorld. rewrite Hu, Hf, Ho. reflexivity.
Qed.

Lemma cancel_store_fails (id0 : string) (w : World) (u : User) (r : Reservation)
    (cause : string) :
  user w = Some u ->
  found id0 w = Some r ->
  userId r = uid u ->
  backend w (length (requests w)) (DeleteDoc id0) = Fails cause ->
  cancelReservation id0 w =
  (Ok tt, withToast (toast_error "Error al cancelar la reserva")
            (withRequest (DeleteDoc id0) w)).
Proof.
  intros Hu Hf Ho Hb. unfold found in Hf. apply String.eqb_eq in Ho.
  unfold cancelReservation, bind, getWorld, tryCatch, deleteDoc.
  rewrite Hu, Hf, Ho. simpl. rewrite Hb. reflexivity.
Qed.

Lemma cancel_deleted (id0 : string) (w : World) (u : User) (r : Reservation)
    (i : string) :
  user w = Some u ->
  found id0 w = Some r ->
  userId r = uid u ->
  backend w (length (requests w)) (DeleteDoc id0) = Done i ->
  cancelReservation id0 w =
  loadReservations
    (withToast (toast_success "Reserva cancelada con éxito")
       (withStore (filter (fun r' => negb (String.eqb (id r') id0)) (store w))
          (withRequest (DeleteDoc id0) w))).
Proof.
  intros Hu Hf Ho Hb. unfold found in Hf. apply String.eqb_eq in Ho.
  unfold cancelReservation, bind, getWorld, tryCatch, deleteDoc, toast.
  rewrite Hu, Hf, Ho. simpl. rewrite Hb.
  match goal with |- context [loadReservations ?w'] =>
    pose proof (loadReservations_resolves w') as E;
    destruct (loadReservations w') as [[[] | e] w'']; simpl in E; [reflexivity | discriminate]
  end.
Qed.

(** What a reload leaves of the world it starts in. *)
Lemma loadReservations_frame (w : World) :
  let w' := snd (loadReservations w) in
  store w' = store w /\ backend w' = backend w /\ user w' = user w /\
  requests w' = (requests w ++ [GetDocs])%list /\
  (reservations w' = store w \/ reservations w' = reservations w).
Proof.
  destruct (backend w (length (requests w)) GetDocs) as [cause | i] eqn:E.
  - rewrite (loadReservations_failed w cause E). simpl. auto 10.
  - rewrite (loadReservations_served w i E). simpl. auto 10.
Qed.

Lemma find_some_of_In {A : Type} (f : A -> bool) (l : list A) (x : A) :
  In x l -> f x = true -> exists y, find f l = Some y.
Proof.
  intros Hin Hf. destruct (find f l) as [y |] eqn:E; [eauto |].
  rewrite (find_none f l E x Hin) in Hf. discriminate.
Qed.

(** ** Admission *)

Section Admission.

Variable parseISO : string -> JsDate.t.
Variable toUpperCase : string -> string.

Local Abbreviation create := (createReservation parseISO toUpperCase).
Local Abbreviation weeklyCount := (weekly parseISO toUpperCase).
Local Abbreviation getCount := (getWeeklyApartmentReservationsCount parseISO toUpperCase).

(** The world in which [createReservation] reloads after a served [addDoc]. *)
Local Abbreviation added w data u newId :=
  (withStore (store w ++ [document newId data (uid u) (clock w)])
     (withRequest (AddDoc data (uid u) (clock w)) w)).

(** Every call of [createReservation] ends in one of five ways. *)
Lemma create_cases (data : ReservationData) (w : World) :
  (user w = None /\
   create data w =
   (Throw Unauthenticated,
    withToast (toast_error "Debes iniciar sesión para hacer una reserva") w)) \/
  (exists u r, user w = Some u /\ taken data w = Some r /\
   create data w =
   (Throw DateAlreadyReserved,
    withToast (toast_error "Esta fecha ya está reservada") w)) \/
  (exists u, user w = Some u /\ taken data w = None /\ (2 <= weeklyCount data w)%nat /\
   create data w =
   (Throw WeeklyQuotaExceeded,
    withToast (toast_error
      "Esta vivienda ya ha alcanzado el límite de 2 reservas esta semana") w)) \/
  (exists u cause, user w = Some u /\ taken data w = None /\ (weeklyCount data w < 2)%nat /\
   backend w (length (requests w)) (AddDoc data (uid u) (clock w)) = Fails cause /\
   create data w =
   (Throw (StoreError cause),
    withToast (toast_error (orElse cause "Error al crear la reserva"))
      (withRequest (AddDoc data (uid u) (clock w)) w))) \/
  (exists u newId, user w = Some u /\ taken data w = None /\ (weeklyCount data w < 2)%nat /\
   backend w (length (requests w)) (AddDoc data (uid u) (clock w)) = Done newId /\
   create data w = loadReservations (added w data u newId)).
Proof.
  destruct (user w) as [u |] eqn:Hu.
  2:{ left. split; [reflexivity |]. now apply create_unauthenticated. }
  right.
  destruct (taken data w) as [r |] eqn:Ht.
  { left. exists u, r. do 2 (split; [reflexivity |]).
    now apply create_taken with (u := u) (r := r). }
  right.
  destruct (Nat.le_gt_cases 2 (weeklyCount data w)) as [Hq | Hq].
  { left. exists u. do 2 (split; [reflexivity |]). split; [assumption |].
    now apply create_quota with (u := u). }
  right.
  destruct (backend w (length (requests w)) (AddDoc data (uid u) (clock w)))
    as [cause | newId] eqn:Hb.
  - left. exists u, cause. do 2 (split; [reflexivity |]). split; [assumption |].
    split; [exact Hb |]. now apply create_store_fails.
  - right. exists u, newId. do 2 (split; [reflexivity |]). split; [assumption |].
    split; [exact Hb |]. now apply create_added.
Qed.

Lemma taken_of_In (data : ReservationData) (w : World) (r : Reservation) :
  In r (reservations w) -> date r = data_date data -> exists r', taken data w = Some r'.
Proof.
  intros Hin Hd. unfold taken.
  apply find_some_of_In with (x := r); [assumption |].
  now apply String.eqb_eq.
Qed.

Lemma taken_none (data : ReservationData) (w : World) :
  (forall r, In r (reservations w) -> date r <> data_date data) -> taken data w = None.
Proof.
  intros H. unfold taken.
  destruct (find _ _) as [r |] eqn:E; [| reflexivity].
  apply find_some in E. destruct E as [Hin Hd].
  apply String.eqb_eq in Hd. exfalso. exact (H r Hin Hd).
Qed.

(** A rejection by one of the checks changes nothing but the toasts. *)
Lemma create_date_reserved (data : ReservationData) (w : World) (u : User)
    (r : Reservation) :
  user w = Some u -> In r (reservations w) -> date r = data_date data ->
  fst (create data w) = Throw DateAlreadyReserved /\
  store (snd (create data w)) = store w /\
  requests (snd (create data w)) = requests w /\
  reservations (snd (create data w)) = reservations w.
Proof.
  intros Hu Hin Hd.
  destruct (taken_of_In data w r Hin Hd) as [r' Ht].
  rewrite (create_taken parseISO toUpperCase data w u r' Hu Ht). simpl. auto.
Qed.

(** An accepted create whose reload is served puts the new record in the
    cache. *)
Lemma create_accepted_reloaded (data : ReservationData) (w : World) (u : User)
    (i : string) :
  user w = Some u ->
  fst (create data w) = Ok tt ->
  backend w (S (length (requests w))) GetDocs = Done i ->
  exists newId,
    store (snd (create data w)) =
      (store w ++ [document newId data (uid u) (clock w)])%list /\
    reservations (snd (create data w)) = store (snd (create data w)).
Proof.
  intros Hu Hok Hb.
  destruct (create_cases data w) as
    [[_ E] | [(u' & r & _ & _ & E) | [(u' & _ & _ & _ & E) |
     [(u' & cause & _ & _ & _ & _ & E) | (u' & newId & Hu' & _ & _ & _ & E)]]]];
    rewrite E in Hok; try discriminate.
  rewrite Hu in Hu'. injection Hu' as <-.
  exists newId. rewrite E.
  rewrite (loadReservations_served _ i).
  - simpl. auto.
  - simpl. rewrite length_app, Nat.add_comm. exact Hb.
Qed.

(** C3 (as amended).  When a cached reservation has the requested [date],
    [createReservation] by any signed-in user, for any unit and whatever the
    weekly count, throws [DateAlreadyReserved] and neither asks anything of
    the collection nor changes it.  Consequently, after an accepted create
    whose reload was served, a further create for the same date (by the
    same or another user) throws [DateAlreadyReserved] and stores nothing. *)
Theorem create_rejects_reserved_date :
  (forall (w : World) (data : ReservationData) (u : User) (r : Reservation),
     user w = Some u ->
     In r (reservations w) ->
     date r = data_date data ->
     fst (create data w) = Throw DateAlreadyReserved /\
     store (snd (create data w)) = store w /\
     requests (snd (create data w)) = requests w) /\
  (forall (w : World) (data : ReservationData) (u : User) (i : string),
     user w = Some u ->
     fst (create data w) = Ok tt ->
     backend w (S (length (requests w))) GetDocs = Done i ->
     forall (data' : ReservationData) (u' : User),
       data_date data' = data_date data ->
       let w1 := withUser (Some u') (snd (create data w)) in
       fst (create data' w1) = Throw DateAlreadyReserved /\
       store (snd (create data' w1)) = store w1).
Proof.
  split.
  - intros w data u r Hu Hin Hd.
    destruct (create_date_reserved data w u r Hu Hin Hd) as (H1 & H2 & H3 & _).
    auto.
  - intros w data u i Hu Hok Hb data' u' Hd w1.
    destruct (create_accepted_reloaded data w u i Hu Hok Hb) as (newId & Hs & Hc).
    pose (r := document newId data (uid u) (clock w)).
    destruct (create_date_reserved data' w1 u' r) as (H1 & H2 & _).
    + reflexivity.
    + unfold w1. simpl. rewrite Hc, Hs. apply in_or_app. right. left. reflexivity.
    + simpl. symmetry. exact Hd.
    + auto.
Qed.

(** C4.  For a signed-in user and a date that no cached reservation has,
    [createReservation] throws [WeeklyQuotaExceeded] exactly when the weekly
    count of the requested unit and date over the cached list is at least 2;
    with a count below 2 the check passes and the record is sent to the
    collection. *)
Theorem create_quota_iff (w : World) (data : ReservationData) (u : User) :
  user w = Some u ->
  (forall r, In r (reservations w) -> date r <> data_date data) ->
  (fst (create data w) = Throw WeeklyQuotaExceeded <->
   (2 <= getCount (reservations w) (data_portal data) (data_floor data)
           (data_door data) (data_date data))%nat) /\
  ((getCount (reservations w) (data_portal data) (data_floor data)
      (data_door data) (data_date data) < 2)%nat ->
   exists rest,
     requests (snd (create data w)) =
     (requests w ++ AddDoc data (uid u) (clock w) :: rest)%list).
Proof.
  intros Hu Hfree.
  pose proof (taken_none data w Hfree) as Ht.
  fold (weeklyCount data w).
  destruct (create_cases data w) as
    [[Hu' E] | [(u' & r & Hu' & Ht' & E) | [(u' & Hu' & _ & Hq & E) |
     [(u' & cause & Hu' & _ & Hq & _ & E) | (u' & newId & Hu' & _ & Hq & _ & E)]]]];
    try congruence; rewrite Hu in Hu'; injection Hu' as <-.
  - rewrite E. simpl. split; [tauto | lia].
  - rewrite E. simpl. split.
    + split; [discriminate | lia].
    + intros _. exists []. reflexivity.
  - rewrite E.
    pose proof (loadReservations_resolves (added w data u newId)) as Hr.
    pose proof (loadReservations_frame (added w data u newId)) as (_ & _ & _ & Hrq & _).
    split.
    + rewrite Hr. split; [discriminate | lia].
    + intros _. exists [GetDocs]. rewrite Hrq. simpl.
      rewrite <- app_assoc. reflexivity.
Qed.

(** C6.  [createReservation] asks the collection to add a record only when
    a user is signed in, no cached reservation has the date and the weekly
    count is below 2.  When it throws [Unauthenticated],
    [DateAlreadyReserved] or [WeeklyQuotaExceeded] nothing was asked of the
    collection and the collection and the cache are as before.  When it
    resolves, the collection has gained exactly one record, made of the
    caller's data with status [confirmed] and the signed-in user's [uid] as
    [userId]. *)
Theorem create_writes_only_when_admitted (w : World) (data : ReservationData) :
  let w' := snd (create data w) in
  ((requests w' <> requests w \/ store w' <> store w) ->
   exists u, user w = Some u /\ taken data w = None /\ (weeklyCount data w < 2)%nat) /\
  (forall e, fst (create data w) = Throw e ->
     e = Unauthenticated \/ e = DateAlreadyReserved \/ e = WeeklyQuotaExceeded ->
     store w' = store w /\ requests w' = requests w /\
     reservations w' = reservations w) /\
  (fst (create data w) = Ok tt ->
   exists u newId record,
     user w = Some u /\
     store w' = (store w ++ [record])%list /\
     record = document newId data (uid u) (clock w) /\
     status record = confirmed /\
     userId record = uid u).
Proof.
  intros w'. subst w'.
  destruct (create_cases data w) as
    [[Hu E] | [(u & r & Hu & Ht & E) | [(u & Hu & Ht & Hq & E) |
     [(u & cause & Hu & Ht & Hq & Hb & E) | (u & newId & Hu & Ht & Hq & Hb & E)]]]];
    rewrite E.
  - simpl. repeat split; try tauto; try discriminate; intros [H | H]; now elim H.
  - simpl. repeat split; try tauto; try discriminate; intros [H | H]; now elim H.
  - simpl. repeat split; try tauto; try discriminate; intros [H | H]; now elim H.
  - simpl. split; [| split].
    + intros _. eauto.
    + intros e He [-> | [-> | ->]]; discriminate.
    + discriminate.
  - pose proof (loadReservations_resolves (added w data u newId)) as Hr.
    pose proof (loadReservations_frame (added w data u newId)) as (Hs & _).
    split; [| split].
    + intros _. eauto.
    + intros e He. rewrite Hr in He. discriminate.
    + intros _. exists u, newId, (document newId data (uid u) (clock w)).
      rewrite Hs. simpl. destruct (data_status data). auto.
Qed.

(** *** The invariants along a run *)

Lemma inCalendarWeekOf_same_week (ms ms' : Z) (x : JsDate.t) :
  inCalendarWeekOf (Some ms) (Some ms') = true ->
  inCalendarWeekOf (Some ms') x = inCalendarWeekOf (Some ms) x.
Proof.
  intros H. simpl in H. apply andb_true_iff in H. rewrite !Z.leb_le in H.
  destruct x as [t |]; [| reflexivity].
  simpl. rewrite (mondayOf_of_week ms ms' H). reflexivity.
Qed.

Lemma sameUnit_same_unit (p f d : string) (r0 r : Reservation) :
  sameUnit toUpperCase p f d r0 = true ->
  sameUnit toUpperCase (portal r0) (floor r0) (door r0) r = sameUnit toUpperCase p f d r.
Proof.
  unfold sameUnit. intros H.
  apply andb_true_iff in H. destruct H as [H Hd].
  apply andb_true_iff in H. destruct H as [Hp Hf].
  apply String.eqb_eq in Hp, Hf, Hd. rewrite Hp, Hf, Hd. reflexivity.
Qed.

Lemma countInWeek_filter_le (q : Reservation -> bool) (rs : list Reservation)
    (p f d : string) (target : JsDate.t) :
  (countInWeek parseISO toUpperCase (filter q rs) p f d target <=
   countInWeek parseISO toUpperCase rs p f d target)%nat.
Proof.
  unfold countInWeek.
  induction rs as [| r rs IH]; cbn [filter length]; [lia |].
  destruct (q r); cbn [filter length];
    destruct (inCalendarWeekOf target (parseISO (date r)) && sameUnit toUpperCase p f d r);
    cbn [length]; lia.
Qed.

Lemma I1_filter (q : Reservation -> bool) (rs : list Reservation) :
  I1 rs -> I1 (filter q rs).
Proof.
  unfold I1. induction rs as [| r rs IH]; simpl; intros H; [constructor |].
  apply NoDup_cons_iff in H. destruct H as [Hnotin Hnd].
  destruct (q r); simpl; [| auto].
  constructor; [| auto].
  intros Hin. apply Hnotin.
  apply in_map_iff in Hin. destruct Hin as (x & Hx & Hin).
  apply filter_In in Hin. apply in_map_iff. exists x. tauto.
Qed.

Lemma I2_filter (q : Reservation -> bool) (rs : list Reservation) :
  I2 parseISO toUpperCase rs -> I2 parseISO toUpperCase (filter q rs).
Proof.
  intros H p f d ms.
  pose proof (countInWeek_filter_le q rs p f d (Some ms)).
  specialize (H p f d ms). lia.
Qed.

(** Adding a record whose date is new keeps the dates distinct. *)
Lemma I1_added (rs : list Reservation) (r : Reservation) :
  I1 rs ->
  find (fun x => String.eqb (date x) (date r)) rs = None ->
  I1 (rs ++ [r]).
Proof.
  unfold I1. intros Hnd Hfind. rewrite map_app. simpl.
  apply NoDup_app; [assumption | repeat constructor; intros [] |].
  intros a Hin [<- | []].
  apply in_map_iff in Hin. destruct Hin as (x & Hx & Hin).
  pose proof (find_none _ _ Hfind x Hin) as Hne. simpl in Hne.
  apply String.eqb_neq in Hne. congruence.
Qed.

(** Adding a record that passed the quota check keeps every unit within its
    quota in every week. *)
Lemma I2_added (rs : list Reservation) (r : Reservation) :
  I2 parseISO toUpperCase rs ->
  (getCount rs (portal r) (floor r) (door r) (date r) < 2)%nat ->
  I2 parseISO toUpperCase (rs ++ [r]).
Proof.
  intros Hq Hlt p f d ms.
  rewrite countInWeek_app, countInWeek_cons.
  change (countInWeek parseISO toUpperCase [] p f d (Some ms)) with 0%nat.
  destruct (inCalendarWeekOf (Some ms) (parseISO (date r)) && sameUnit toUpperCase p f d r)
    eqn:E.
  2:{ specialize (Hq p f d ms). lia. }
  apply andb_true_iff in E. destruct E as [Hweek Hunit].
  rewrite getCount_countInWeek in Hlt.
  destruct (parseISO (date r)) as [ms' |] eqn:Hp; [| discriminate].
  enough (countInWeek parseISO toUpperCase rs p f d (Some ms) =
          countInWeek parseISO toUpperCase rs (portal r) (floor r) (door r) (Some ms'))
    as -> by lia.
  unfold countInWeek. f_equal. apply filter_ext. intros x.
  rewrite (inCalendarWeekOf_same_week ms ms' _ Hweek).
  rewrite (sameUnit_same_unit p f d r x Hunit). reflexivity.
Qed.

(** What a served reload leaves. *)
Lemma loadReservations_synced (w : World) :
  listingServed w ->
  let w' := snd (loadReservations w) in
  store w' = store w /\ backend w' = backend w /\ reservations w' = store w.
Proof.
  intros Hl. destruct (Hl (length (requests w))) as [i Hi].
  rewrite (loadReservations_served w i Hi). simpl. auto.
Qed.

Lemma create_consistent (data : ReservationData) (w : World) :
  Consistent parseISO toUpperCase w ->
  Consistent parseISO toUpperCase (snd (create data w)).
Proof.
  intros (Hl & Hs & H1 & H2). unfold Consistent, synced, listingServed in *.
  destruct (create_cases data w) as
    [[Hu E] | [(u & r & Hu & Ht & E) | [(u & Hu & Ht & Hq & E) |
     [(u & cause & Hu & Ht & Hq & Hb & E) | (u & newId & Hu & Ht & Hq & Hb & E)]]]];
    rewrite E; try (simpl; auto; fail).
  destruct (loadReservations_synced (added w data u newId)) as (Es & Eb & Ec).
  { exact Hl. }
  rewrite Es, Eb, Ec. simpl.
  repeat split; try assumption.
  - apply I1_added; [assumption |].
    unfold taken in Ht. rewrite Hs in Ht. exact Ht.
  - apply I2_added; [assumption |].
    unfold weekly in Hq. rewrite Hs in Hq. exact Hq.
Qed.

Lemma cancel_consistent (id0 : string) (w : World) :
  Consistent parseISO toUpperCase w ->
  Consistent parseISO toUpperCase (snd (cancelReservation id0 w)).
Proof.
  intros (Hl & Hs & H1 & H2). unfold Consistent, synced, listingServed in *.
  destruct (user w) as [u |] eqn:Hu.
  2:{ rewrite (cancel_unauthenticated id0 w Hu). simpl. auto. }
  destruct (found id0 w) as [r |] eqn:Hf.
  2:{ rewrite (cancel_not_found id0 w u Hu Hf). simpl. auto. }
  destruct (String.eqb_spec (userId r) (uid u)) as [Ho | Ho].
  2:{ rewrite (cancel_forbidden id0 w u r Hu Hf Ho). simpl. auto. }
  destruct (backend w (length (requests w)) (DeleteDoc id0)) as [cause | i] eqn:Hb.
  { rewrite (cancel_store_fails id0 w u r cause Hu Hf Ho Hb). simpl. auto. }
  rewrite (cancel_deleted id0 w u r i Hu Hf Ho Hb).
  match goal with |- context [loadReservations ?w1] =>
    destruct (loadReservations_synced w1) as (Es & Eb & Ec); [exact Hl |]
  end.
  rewrite Es, Eb, Ec. simpl.
  repeat split; try assumption.
  - now apply I1_filter.
  - now apply I2_filter.
Qed.

Lemma handle_consistent (ev : Event) (w : World) :
  Consistent parseISO toUpperCase w ->
  Consistent parseISO toUpperCase (snd (handle parseISO toUpperCase ev w)).
Proof.
  destruct ev as [data | id0 | | u]; simpl.
  - apply create_consistent.
  - apply cancel_consistent.
  - intros (Hl & Hs & H1 & H2).
    destruct (loadReservations_synced w Hl) as (Es & Eb & Ec).
    unfold Consistent, synced, listingServed. rewrite Es, Eb, Ec. auto.
  - intros H. exact H.
Qed.

(** C1 (as amended).  Start from a provider whose cache holds the
    collection's content and whose collection satisfies I1 and I2, and let
    the collection serve every listing.  Then after every sequence of
    events handled one after the other (creations, cancellations, reloads,
    sign-ins and sign-outs, accepted or not) the collection still satisfies
    I1 and I2 and the cache still holds its content. *)
Theorem run_preserves_invariants (evs : list Event) (w : World) :
  listingServed w ->
  synced w ->
  I1 (store w) ->
  I2 parseISO toUpperCase (store w) ->
  let w' := run parseISO toUpperCase evs w in
  I1 (store w') /\ I2 parseISO toUpperCase (store w') /\ synced w'.
Proof.
  intros Hl Hs H1 H2.
  assert (Consistent parseISO toUpperCase w) as Hc by (unfold Consistent; auto).
  clear Hl Hs H1 H2. revert w Hc.
  induction evs as [| ev evs IH]; intros w Hc; simpl.
  - destruct Hc as (_ & Hs & H1 & H2). auto.
  - apply IH. now apply handle_consistent.
Qed.

End Admission.

(** ** Cancellation and failures of the collection *)

Lemma requests_not_extended (rqs rest : list Request) (rq : Request) :
  rqs <> (rqs ++ rq :: rest)%list.
Proof.
  intros H. apply (f_equal (@length Request)) in H.
  rewrite length_app in H. simpl in H. lia.
Qed.

Ltac cancel_side :=
  try solve
    [ auto
    | discriminate
    | tauto
    | intros; congruence
    | intros (?u & ?r & ?Hu & ?Hr & ?Ho); congruence
    | let H := fresh in
      intros (?rest & H); elim (requests_not_extended _ _ _ H) ].

(** C5 (as amended).  [cancelReservation] resolves in every case; nothing
    is returned or thrown to its caller.  It asks the collection to delete
    the record exactly when a user is signed in, the cache has a reservation
    with that [id] and that reservation's [userId] is the user's [uid]; if
    the collection serves the deletion the record is gone from it.
    Otherwise the only effect is an error toast, one text for a missing
    user, one for a missing reservation and one for a foreign reservation,
    and the collection, the cache and the request log are as before. *)
Theorem cancel_outcomes (id0 : string) (w : World) :
  let w' := snd (cancelReservation id0 w) in
  fst (cancelReservation id0 w) = Ok tt /\
  ((exists u r, user w = Some u /\ found id0 w = Some r /\ userId r = uid u) <->
   (exists rest, requests w' = (requests w ++ DeleteDoc id0 :: rest)%list)) /\
  (forall u r i,
     user w = Some u -> found id0 w = Some r -> userId r = uid u ->
     backend w (length (requests w)) (DeleteDoc id0) = Done i ->
     store w' = filter (fun r' => negb (String.eqb (id r') id0)) (store w)) /\
  (user w = None ->
   w' = withToast (toast_error "Debes iniciar sesión para cancelar una reserva") w) /\
  (forall u, user w = Some u -> found id0 w = None ->
   w' = withToast (toast_error "Reserva no encontrada") w) /\
  (forall u r, user w = Some u -> found id0 w = Some r -> userId r <> uid u ->
   w' = withToast (toast_error "Solo puedes cancelar tus propias reservas") w) /\
  (~ (exists u r, user w = Some u /\ found id0 w = Some r /\ userId r = uid u) ->
   store w' = store w /\ reservations w' = reservations w /\
   requests w' = requests w).
Proof.
  intros w'. subst w'.
  destruct (user w) as [u |] eqn:Hu.
  2:{ rewrite (cancel_unauthenticated id0 w Hu). simpl. repeat split; cancel_side. }
  destruct (found id0 w) as [r |] eqn:Hf.
  2:{ rewrite (cancel_not_found id0 w u Hu Hf). simpl. repeat split; cancel_side. }
  destruct (String.eqb_spec (userId r) (uid u)) as [Ho | Ho].
  2:{ rewrite (cancel_forbidden id0 w u r Hu Hf Ho). simpl. repeat split; cancel_side. }
  assert (exists u0 r0, Some u = Some u0 /\ Some r = Some r0 /\ userId r0 = uid u0)
    as Hcond by eauto.
  destruct (backend w (length (requests w)) (DeleteDoc id0)) as [cause | i] eqn:Hb.
  { rewrite (cancel_store_fails id0 w u r cause Hu Hf Ho Hb). simpl.
    repeat split; cancel_side. intros _. exists []. reflexivity. }
  rewrite (cancel_deleted id0 w u r i Hu Hf Ho Hb).
  match goal with |- context [loadReservations ?w1] =>
    pose proof (loadReservations_resolves w1) as Hr;
    pose proof (loadReservations_frame w1) as (Hs & _ & _ & Hrq & _)
  end.
  rewrite Hr, Hs, Hrq. simpl.
  repeat split; cancel_side.
  intros _. exists [GetDocs]. rewrite <- app_assoc. reflexivity.
Qed.

(** C8 (as amended).  When the listing fails, [loadReservations] leaves the
    cached list (and the collection) as it was, shows an error toast and
    resolves: the failure does not reach the caller.  The listing is asked
    for once. *)
Theorem reload_failure_keeps_cache (w : World) (cause : string) :
  backend w (length (requests w)) GetDocs = Fails cause ->
  let w' := snd (loadReservations w) in
  reservations w' = reservations w /\
  store w' = store w /\
  fst (loadReservations w) = Ok tt /\
  toasts w' = (toasts w ++ [toast_error "Error al cargar las reservas"])%list /\
  requests w' = (requests w ++ [GetDocs])%list.
Proof.
  intros H. rewrite (loadReservations_failed w cause H). simpl. auto.
Qed.

Section Failures.

Variable parseISO : string -> JsDate.t.
Variable toUpperCase : string -> string.

Local Abbreviation create := (createReservation parseISO toUpperCase).
Local Abbreviation weeklyCount := (weekly parseISO toUpperCase).

(** C7 (as amended).  A failed [addDoc] makes [createReservation] throw the
    collection's error to its caller, after one request and with nothing
    stored.  A failed [deleteDoc] makes [cancelReservation] show an error
    toast and resolve, after one request and with nothing deleted: the
    caller is not told.  A failed listing in the reload that ends either
    operation, after a served [addDoc] or a served [deleteDoc], is reported
    by a toast only, after that one listing.  No request is repeated: all
    that [createReservation] ever asks is nothing, one [addDoc], or one
    [addDoc] and one listing, and all that [cancelReservation] ever asks is
    nothing, one [deleteDoc], or one [deleteDoc] and one listing. *)
Theorem store_failures_surface :
  (forall (w : World) (data : ReservationData) (u : User) (cause : string),
     user w = Some u -> taken data w = None -> (weeklyCount data w < 2)%nat ->
     backend w (length (requests w)) (AddDoc data (uid u) (clock w)) = Fails cause ->
     let w' := snd (create data w) in
     fst (create data w) = Throw (StoreError cause) /\
     requests w' = (requests w ++ [AddDoc data (uid u) (clock w)])%list /\
     store w' = store w /\ reservations w' = reservations w) /\
  (forall (w : World) (id0 : string) (u : User) (r : Reservation) (cause : string),
     user w = Some u -> found id0 w = Some r -> userId r = uid u ->
     backend w (length (requests w)) (DeleteDoc id0) = Fails cause ->
     let w' := snd (cancelReservation id0 w) in
     fst (cancelReservation id0 w) = Ok tt /\
     toasts w' = (toasts w ++ [toast_error "Error al cancelar la reserva"])%list /\
     requests w' = (requests w ++ [DeleteDoc id0])%list /\
     store w' = store w /\ reservations w' = reservations w) /\
  (forall (w : World) (data : ReservationData) (u : User) (newId cause : string),
     user w = Some u -> taken data w = None -> (weeklyCount data w < 2)%nat ->
     backend w (length (requests w)) (AddDoc data (uid u) (clock w)) = Done newId ->
     backend w (S (length (requests w))) GetDocs = Fails cause ->
     let w' := snd (create data w) in
     fst (create data w) = Ok tt /\
     toasts w' = (toasts w ++ [toast_error "Error al cargar las reservas"])%list /\
     requests w' = (requests w ++ [AddDoc data (uid u) (clock w); GetDocs])%list /\
     reservations w' = reservations w) /\
  (forall (w : World) (id0 : string) (u : User) (r : Reservation) (i cause : string),
     user w = Some u -> found id0 w = Some r -> userId r = uid u ->
     backend w (length (requests w)) (DeleteDoc id0) = Done i ->
     backend w (S (length (requests w))) GetDocs = Fails cause ->
     let w' := snd (cancelReservation id0 w) in
     fst (cancelReservation id0 w) = Ok tt /\
     toasts w' =
       (toasts w ++ [toast_success "Reserva cancelada con éxito";
                     toast_error "Error al cargar las reservas"])%list /\
     requests w' = (requests w ++ [DeleteDoc id0; GetDocs])%list /\
     reservations w' = reservations w /\
     store w' = filter (fun x => negb (String.eqb (id x) id0)) (store w)) /\
  (forall (w : World) (data : ReservationData),
     let w' := snd (create data w) in
     requests w' = requests w \/
     exists u, user w = Some u /\
       (requests w' = (requests w ++ [AddDoc data (uid u) (clock w)])%list \/
        requests w' = (requests w ++ [AddDoc data (uid u) (clock w); GetDocs])%list)) /\
  (forall (w : World) (id0 : string),
     let w' := snd (cancelReservation id0 w) in
     requests w' = requests w \/
     requests w' = (requests w ++ [DeleteDoc id0])%list \/
     requests w' = (requests w ++ [DeleteDoc id0; GetDocs])%list).
Proof.
  split; [| split; [| split; [| split; [| split]]]].
  - intros w data u cause Hu Ht Hq Hb.
    rewrite (create_store_fails parseISO toUpperCase data w u cause Hu Ht Hq Hb).
    simpl. auto.
  - intros w id0 u r cause Hu Hf Ho Hb.
    rewrite (cancel_store_fails id0 w u r cause Hu Hf Ho Hb). simpl. auto.
  - intros w data u newId cause Hu Ht Hq Hb Hl.
    rewrite (create_added parseISO toUpperCase data w u newId Hu Ht Hq Hb).
    rewrite (loadReservations_failed _ cause).
    + simpl. rewrite <- app_assoc. auto.
    + simpl. rewrite length_app, Nat.add_comm. exact Hl.
  - intros w id0 u r i cause Hu Hf Ho Hb Hl.
    rewrite (cancel_deleted id0 w u r i Hu Hf Ho Hb).
    rewrite (loadReservations_failed _ cause).
    + simpl. rewrite <- !app_assoc. auto.
    + simpl. rewrite length_app, Nat.add_comm. exact Hl.
  - intros w data.
    destruct (create_cases parseISO toUpperCase data w) as
      [[Hu E] | [(u & r & Hu & Ht & E) | [(u & Hu & Ht & Hq & E) |
       [(u & cause & Hu & Ht & Hq & Hb & E) | (u & newId & Hu & Ht & Hq & Hb & E)]]]];
      rewrite E.
    + left. reflexivity.
    + left. reflexivity.
    + left. reflexivity.
    + right. exists u. split; [exact Hu |]. left. reflexivity.
    + right. exists u. split; [exact Hu |]. right.
      match goal with |- context [loadReservations ?w1] =>
        pose proof (loadReservations_frame w1) as (_ & _ & _ & Hrq & _)
      end.
      cbv zeta. rewrite Hrq. simpl. rewrite <- app_assoc. reflexivity.
  - intros w id0.
    destruct (user w) as [u |] eqn:Hu.
    2:{ rewrite (cancel_unauthenticated id0 w Hu). left. reflexivity. }
    destruct (found id0 w) as [r |] eqn:Hf.
    2:{ rewrite (cancel_not_found id0 w u Hu Hf). left. reflexivity. }
    destruct (String.eqb_spec (userId r) (uid u)) as [Ho | Ho].
    2:{ rewrite (cancel_forbidden id0 w u r Hu Hf Ho). left. reflexivity. }
    destruct (backend w (length (requests w)) (DeleteDoc id0)) as [cause | i] eqn:Hb.
    { rewrite (cancel_store_fails id0 w u r cause Hu Hf Ho Hb).
      right. left. reflexivity. }
    rewrite (cancel_deleted id0 w u r i Hu Hf Ho Hb).
    right. right.
    match goal with |- context [loadReservations ?w1] =>
      pose proof (loadReservations_frame w1) as (_ & _ & _ & Hrq & _)
    end.
    cbv zeta. rewrite Hrq. simpl. rewrite <- app_assoc. reflexivity.
Qed.

End Failures.

(** ** Letter case and the text of dates *)



Section DoorsAndDates.

Variable parseISO : string -> JsDate.t.
Variable toUpperCase : string -> string.

Local Abbreviation create := (createReservation parseISO toUpperCase).
Local Abbreviation weeklyCount := (weekly parseISO toUpperCase).
Local Abbreviation getCount := (getWeeklyApartmentReservationsCount parseISO toUpperCase).


(** The count looks at the target date only through its parsed value. *)
Lemma getCount_parsed (rs : list Reservation) (p f d date0 date1 : string) :
  parseISO date0 = parseISO date1 ->
  getCount rs p f d date0 = getCount rs p f d date1.
Proof.
  intros H. unfold getWeeklyApartmentReservationsCount. rewrite H. reflexivity.
Qed.


(** When [createReservation] throws [WeeklyQuotaExceeded]. *)
Lemma create_quota_decision (data : ReservationData) (w : World) :
  fst (create data w) = Throw WeeklyQuotaExceeded <->
  (user w <> None /\ taken data w = None /\ (2 <= weeklyCount data w)%nat).
Proof.
  destruct (create_cases parseISO toUpperCase data w) as
    [[Hu E] | [(u & r & Hu & Ht & E) | [(u & Hu & Ht & Hq & E) |
     [(u & cause & Hu & Ht & Hq & Hb & E) | (u & newId & Hu & Ht & Hq & Hb & E)]]]];
    rewrite E; try rewrite loadReservations_resolves; simpl;
    (split; [discriminate || (intros _; rewrite Hu; repeat split; congruence)
            | intros (H1 & H2 & H3); congruence || lia]).
Qed.

(** When [createReservation] throws [DateAlreadyReserved]. *)
Lemma create_date_decision (data : ReservationData) (w : World) :
  fst (create data w) = Throw DateAlreadyReserved <->
  (user w <> None /\ taken data w <> None).
Proof.
  destruct (create_cases parseISO toUpperCase data w) as
    [[Hu E] | [(u & r & Hu & Ht & E) | [(u & Hu & Ht & Hq & E) |
     [(u & cause & Hu & Ht & Hq & Hb & E) | (u & newId & Hu & Ht & Hq & Hb & E)]]]];
    rewrite E; try rewrite loadReservations_resolves; simpl;
    (split; [discriminate || (intros _; rewrite Hu, Ht; split; congruence)
            | intros (H1 & H2); congruence]).
Qed.


(** The count looks at a stored date only through its parsed value. *)
Lemma getCount_dates (rs : list Reservation) (retext : Reservation -> string)
    (p f d date0 : string) :
  (forall r, parseISO (retext r) = parseISO (date r)) ->
  getCount (map (fun r => withDate (retext r) r) rs) p f d date0 =
  getCount rs p f d date0.
Proof.
  intros Hr. unfold getWeeklyApartmentReservationsCount.
  induction rs as [| r rs IH]; [reflexivity |].
  cbn [map filter].
  replace (inWeekOfApartment parseISO toUpperCase _ _ p f d (withDate (retext r) r))
    with (inWeekOfApartment parseISO toUpperCase
            (JsDate.startOfWeek (parseISO date0) 1) (JsDate.endOfWeek (parseISO date0) 1)
            p f d r).
  - destruct (inWeekOfApartment _ _ _ _ p f d r); cbn [length]; rewrite IH; reflexivity.
  - unfold inWeekOfApartment. simpl. rewrite Hr. reflexivity.
Qed.

(** What one more reservation adds to the count: one if its parsed date is
    in the calendar week of the parsed target and it is of the unit, and
    nothing otherwise. *)
Lemma getCount_cons (r : Reservation) (rs : list Reservation) (p f d date0 : string) :
  getCount (r :: rs) p f d date0 =
  ((if inCalendarWeekOf (parseISO date0) (parseISO (date r)) &&
       sameUnit toUpperCase p f d r
    then 1 else 0) + getCount rs p f d date0)%nat.
Proof.
  rewrite !getCount_countInWeek. apply countInWeek_cons.
Qed.


End DoorsAndDates.


(** C10.  The uniqueness check of [createReservation] compares the text of
    the dates: it throws [DateAlreadyReserved] exactly when a cached
    reservation has the very string requested.  The weekly count compares
    parsed dates: it depends on the target date and on every stored date
    only through what [parseISO] makes of them, and a reservation of the
    unit adds one exactly when its parsed date lies in the calendar week of
    the parsed target.  So [2024-01-01] and [20240101], two texts of one
    day, are different dates for the first check and the same date for the
    second: with a reservation dated [2024-01-01] cached, the same flat's
    request for [20240101] is accepted and is counted in that week, while
    the reservation of the Monday after is not. *)
Theorem uniqueness_compares_text :
  (forall (parseISO : string -> JsDate.t) (toUpperCase : string -> string)
          (w : World) (data : ReservationData),
     user w <> None ->
     (fst (createReservation parseISO toUpperCase data w) = Throw DateAlreadyReserved <->
      exists r, In r (reservations w) /\ date r = data_date data)) /\
  (forall (parseISO : string -> JsDate.t) (toUpperCase : string -> string)
          (rs : list Reservation) (p f d date0 date1 : string),
     parseISO date0 = parseISO date1 ->
     getWeeklyApartmentReservationsCount parseISO toUpperCase rs p f d date0 =
     getWeeklyApartmentReservationsCount parseISO toUpperCase rs p f d date1) /\
  (let w := loaded [monday] serving (Some userX) in
   let w' := snd (createReservation parseISO_calendar toUpperCase_ascii
                    (flatP1_2A "20240101") w) in
   "20240101" <> "2024-01-01" /\
   parseISO_calendar "20240101" = parseISO_calendar "2024-01-01" /\
   parseISO_calendar "2024-01-01" = Some 1704067200000 /\
   fst (createReservation parseISO_calendar toUpperCase_ascii
          (flatP1_2A "20240101") w) = Ok tt /\
   map date (store w') = ["2024-01-01"; "20240101"] /\
   getWeeklyApartmentReservationsCount parseISO_calendar toUpperCase_ascii
     (store w') "P1" "2" "A" "20240101" = 2%nat) /\
  (forall (parseISO : string -> JsDate.t) (toUpperCase : string -> string)
          (r : Reservation) (rs : list Reservation) (p f d date0 : string),
     getWeeklyApartmentReservationsCount parseISO toUpperCase (r :: rs) p f d date0 =
     ((if inCalendarWeekOf (parseISO date0) (parseISO (date r)) &&
          sameUnit toUpperCase p f d r
       then 1 else 0) +
      getWeeklyApartmentReservationsCount parseISO toUpperCase rs p f d date0)%nat) /\
  (forall (parseISO : string -> JsDate.t) (toUpperCase : string -> string)
          (rs : list Reservation) (retext : Reservation -> string)
          (p f d date0 : string),
     (forall r, parseISO (retext r) = parseISO (date r)) ->
     getWeeklyApartmentReservationsCount parseISO toUpperCase
       (map (fun r => withDate (retext r) r) rs) p f d date0 =
     getWeeklyApartmentReservationsCount parseISO toUpperCase rs p f d date0) /\
  (countIn [monday; nextMonday] "P1" "2" "A" "20240101" = 1%nat /\
   countIn [nextMonday] "P1" "2" "A" "20240101" = 0%nat /\
   countIn [withDate "20240101" monday] "P1" "2" "A" "2024-01-01" = 1%nat /\
   countIn [withDate "2024-01-08" monday] "P1" "2" "A" "2024-01-01" = 0%nat).
Proof.
  split; [| split; [| split; [| split; [| split]]]].
  - intros parseISO toUpperCase w data Hu.
    rewrite create_date_decision. split.
    + intros [_ Ht]. unfold taken in Ht.
      destruct (find _ (reservations w)) as [r |] eqn:E; [| congruence].
      apply find_some in E. destruct E as [Hin Hd].
      apply String.eqb_eq in Hd. eauto.
    + intros (r & Hin & Hd). split; [assumption |].
      destruct (taken_of_In data w r Hin Hd) as [r' ->]. discriminate.
  - intros parseISO toUpperCase rs p f d date0 date1. apply getCount_parsed.
  - vm_compute. repeat split. discriminate.
  - intros parseISO toUpperCase r rs p f d date0. apply getCount_cons.
  - intros parseISO toUpperCase rs retext p f d date0. apply getCount_dates.
  - vm_compute. repeat split.
Qed.

(** ** Scenarios where the listing, or a deletion, fails *)

(** With the listing down, X's create for 2024-02-10 is accepted and the
    cache stays empty; Y's create for the same date is then accepted too, and
    the collection holds two reservations with one date. *)
Lemma failed_reload_admits_duplicate_date :
  synced emptyListingDown /\
  I1 (store emptyListingDown) /\
  I2 parseISO_calendar toUpperCase_ascii (store emptyListingDown) /\
  fst (createIn (flatP1_2A "2024-02-10") emptyListingDown) = Ok tt /\
  fst (createIn (flatP1_3B "2024-02-10")
         (withUser (Some userY)
            (snd (createIn (flatP1_2A "2024-02-10") emptyListingDown)))) = Ok tt /\
  map date
    (store (run parseISO_calendar toUpperCase_ascii
              [Create (flatP1_2A "2024-02-10"); AuthStateChanged (Some userY);
               Create (flatP1_3B "2024-02-10")] emptyListingDown)) =
    ["2024-02-10"; "2024-02-10"] /\
  ~ I1 (store (run parseISO_calendar toUpperCase_ascii
                 [Create (flatP1_2A "2024-02-10"); AuthStateChanged (Some userY);
                  Create (flatP1_3B "2024-02-10")] emptyListingDown)).
Proof.
  split; [reflexivity |].
  split; [constructor |].
  split; [intros p f d ms; apply Nat.le_0_l |].
  split; [reflexivity |].
  split; [reflexivity |].
  split; [reflexivity |].
  intros H. unfold I1 in H.
  change (NoDup ["2024-02-10"; "2024-02-10"]) in H.
  apply NoDup_cons_iff in H. destruct H as [H _]. apply H. left. reflexivity.
Qed.

(** With the listing down, the retry of a create that was just accepted is
    accepted again. *)
Lemma retry_after_failed_reload_is_accepted :
  fst (createIn (flatP1_2A "2024-02-10") emptyListingDown) = Ok tt /\
  fst (createIn (flatP1_2A "2024-02-10")
         (snd (createIn (flatP1_2A "2024-02-10") emptyListingDown))) = Ok tt /\
  fst (createIn (flatP1_2A "2024-02-10")
         (snd (createIn (flatP1_2A "2024-02-10") emptyListingDown))) <>
    Throw DateAlreadyReserved /\
  map date
    (store (snd (createIn (flatP1_2A "2024-02-10")
                   (snd (createIn (flatP1_2A "2024-02-10") emptyListingDown))))) =
    ["2024-02-10"; "2024-02-10"].
Proof.
  split; [reflexivity |].
  split; [reflexivity |].
  split; [discriminate |].
  reflexivity.
Qed.

(** A cancellation without a user, one of a reservation that is not there,
    one of another user's reservation and one that deletes all end the same
    way for the caller. *)
Lemma cancel_rejections_are_not_raised :
  user signedOut = None /\
  fst (cancelReservation "r1" signedOut) = Ok tt /\
  (forall e, fst (cancelReservation "r1" signedOut) <> Throw e) /\
  fst (cancelReservation "r9" (mondayOfX userX)) = Ok tt /\
  fst (cancelReservation "r1" (mondayOfX userY)) = Ok tt /\
  store (snd (cancelReservation "r1" (mondayOfX userY))) = [monday] /\
  fst (cancelReservation "r1" (mondayOfX userX)) = Ok tt /\
  store (snd (cancelReservation "r1" (mondayOfX userX))) = [].
Proof.
  repeat split. intros e. discriminate.
Qed.

(** A deletion that the collection rejects is not thrown by
    [cancelReservation]. *)
Lemma failed_delete_is_not_raised :
  backend mondayDeletingDown (length (requests mondayDeletingDown)) (DeleteDoc "r1") =
    Fails "unavailable" /\
  fst (cancelReservation "r1" mondayDeletingDown) = Ok tt /\
  (forall e, fst (cancelReservation "r1" mondayDeletingDown) <> Throw e) /\
  store (snd (cancelReservation "r1" mondayDeletingDown)) = [monday].
Proof.
  repeat split. intros e. discriminate.
Qed.

(** A listing that the collection rejects is not thrown by
    [loadReservations]. *)
Lemma failed_listing_is_not_raised :
  backend emptyListingDown (length (requests emptyListingDown)) GetDocs =
    Fails "unavailable" /\
  fst (loadReservations emptyListingDown) = Ok tt /\
  (forall e, fst (loadReservations emptyListingDown) <> Throw e).
Proof.
  repeat split. intros e. discriminate.
Qed.

(** ** The theorems at work on the scenarios *)

(** A create, a second create for the same date and a cancellation, with
    every listing served. *)
Lemma run_preserves_invariants_witness :
  listingServed emptyServing /\
  I1 (store (run parseISO_calendar toUpperCase_ascii
               [Create (flatP1_2A "2024-02-10"); Create (flatP1_3B "2024-02-10");
                Cancel "doc0"] emptyServing)) /\
  I2 parseISO_calendar toUpperCase_ascii
     (store (run parseISO_calendar toUpperCase_ascii
               [Create (flatP1_2A "2024-02-10"); Create (flatP1_3B "2024-02-10");
                Cancel "doc0"] emptyServing)) /\
  synced (run parseISO_calendar toUpperCase_ascii
            [Create (flatP1_2A "2024-02-10"); Create (flatP1_3B "2024-02-10");
             Cancel "doc0"] emptyServing).
Proof.
  assert (listingServed emptyServing) as Hl.
  { intros n. exists (docId n). reflexivity. }
  split; [exact Hl |].
  apply (run_preserves_invariants parseISO_calendar toUpperCase_ascii
           [Create (flatP1_2A "2024-02-10"); Create (flatP1_3B "2024-02-10");
            Cancel "doc0"] emptyServing).
  - exact Hl.
  - reflexivity.
  - constructor.
  - intros p f d ms. apply Nat.le_0_l.
Defined.

(** P5: with the target on Wednesday 2024-01-03, the reservations of Monday
    2024-01-01 and Sunday 2024-01-07 count and that of Monday 2024-01-08
    does not. *)
Lemma getWeeklyApartmentReservationsCount_exact_witness :
  countIn [monday] "P1" "2" "A" "2024-01-03" = 1%nat /\
  countIn [sunday] "P1" "2" "A" "2024-01-03" = 1%nat /\
  countIn [nextMonday] "P1" "2" "A" "2024-01-03" = 0%nat.
Proof.
  destruct (getWeeklyApartmentReservationsCount_exact parseISO_calendar
              toUpperCase_ascii [] "P1" "2" "A" "2024-01-03") as [_ H].
  split; [| split].
  - destruct (H monday 1704240000000 1704067200000 eq_refl eq_refl eq_refl)
      as (_ & Hm & _ & _).
    apply Hm. reflexivity.
  - destruct (H sunday 1704240000000 1704585600000 eq_refl eq_refl eq_refl)
      as (_ & _ & Hs & _).
    apply Hs. reflexivity.
  - destruct (H nextMonday 1704240000000 1704672000000 eq_refl eq_refl eq_refl)
      as (_ & _ & _ & Hn).
    apply Hn. reflexivity.
Defined.

(** Scenario B: X's create for 2024-02-10 is accepted, Y's for the same date
    is then rejected; and a date cached for one flat is refused to another. *)
Lemma create_rejects_reserved_date_witness :
  fst (createIn (flatP1_3B "2024-01-01") (mondayOfX userY)) = Throw DateAlreadyReserved /\
  fst (createIn (flatP1_3B "2024-02-10")
         (withUser (Some userY)
            (snd (createIn (flatP1_2A "2024-02-10") emptyServing)))) =
    Throw DateAlreadyReserved.
Proof.
  destruct (create_rejects_reserved_date parseISO_calendar toUpperCase_ascii)
    as [H1 H2].
  split.
  - destruct (H1 (mondayOfX userY) (flatP1_3B "2024-01-01") userY monday) as [H _].
    + reflexivity.
    + left. reflexivity.
    + reflexivity.
    + exact H.
  - destruct (H2 emptyServing (flatP1_2A "2024-02-10") userX (docId 1))
      with (data' := flatP1_3B "2024-02-10") (u' := userY) as [H _].
    + reflexivity.
    + reflexivity.
    + reflexivity.
    + reflexivity.
    + exact H.
Defined.

(** Scenario A: the flat has Monday and Wednesday; its request for Friday
    2024-01-05 is rejected for the quota. *)
Lemma create_quota_iff_witness :
  fst (createIn (flatP1_2A "2024-01-05") mondayWednesday) = Throw WeeklyQuotaExceeded.
Proof.
  destruct (create_quota_iff parseISO_calendar toUpperCase_ascii
              mondayWednesday (flatP1_2A "2024-01-05") userX) as [[_ H] _].
  - reflexivity.
  - intros r [<- | [<- | []]]; discriminate.
  - apply H. vm_compute. apply le_n.
Defined.

(** Scenario C: X cancels X's reservation and it is gone; Y's attempt leaves
    it and shows the toast of a foreign reservation. *)
Lemma cancel_outcomes_witness :
  store (snd (cancelReservation "r1" (mondayOfX userX))) = [] /\
  snd (cancelReservation "r1" (mondayOfX userY)) =
    withToast (toast_error "Solo puedes cancelar tus propias reservas") (mondayOfX userY).
Proof.
  split.
  - destruct (cancel_outcomes "r1" (mondayOfX userX)) as (_ & _ & H & _).
    apply (H userX monday (docId 0)); reflexivity.
  - destruct (cancel_outcomes "r1" (mondayOfX userY)) as (_ & _ & _ & _ & _ & H & _).
    apply (H userY monday); [reflexivity | reflexivity | discriminate].
Defined.

(** An accepted create stores the caller's data under the user's [uid]. *)
Lemma create_writes_only_when_admitted_witness :
  exists u newId record,
    user emptyServing = Some u /\
    store (snd (createIn (flatP1_2A "2024-02-10") emptyServing)) = ([] ++ [record])%list /\
    record = document newId (flatP1_2A "2024-02-10") (uid u) (clock emptyServing) /\
    status record = confirmed /\
    userId record = uid u.
Proof.
  destruct (create_writes_only_when_admitted parseISO_calendar toUpperCase_ascii
              emptyServing (flatP1_2A "2024-02-10")) as (_ & _ & H).
  apply H. reflexivity.
Defined.

(** A rejected [addDoc] is thrown by [createReservation]; a rejected
    [deleteDoc] is not thrown by [cancelReservation]; and with the listing
    down each operation asks for its write and for one listing. *)
Lemma store_failures_surface_witness :
  fst (createIn (flatP1_2A "2024-02-10") emptyAddingDown) =
    Throw (StoreError "unavailable") /\
  fst (cancelReservation "r1" mondayDeletingDown) = Ok tt /\
  (fst (createIn (flatP1_2A "2024-02-10") emptyListingDown) = Ok tt /\
   requests (snd (createIn (flatP1_2A "2024-02-10") emptyListingDown)) =
     [AddDoc (flatP1_2A "2024-02-10") "X" 0; GetDocs]) /\
  (fst (cancelReservation "r1" mondayListingDown) = Ok tt /\
   toasts (snd (cancelReservation "r1" mondayListingDown)) =
     [toast_success "Reserva cancelada con éxito";
      toast_error "Error al cargar las reservas"] /\
   requests (snd (cancelReservation "r1" mondayListingDown)) =
     [DeleteDoc "r1"; GetDocs] /\
   reservations (snd (cancelReservation "r1" mondayListingDown)) = [monday] /\
   store (snd (cancelReservation "r1" mondayListingDown)) = []) /\
  (requests (snd (cancelReservation "r1" (mondayOfX userX))) = [] \/
   requests (snd (cancelReservation "r1" (mondayOfX userX))) = [DeleteDoc "r1"] \/
   requests (snd (cancelReservation "r1" (mondayOfX userX))) =
     [DeleteDoc "r1"; GetDocs]).
Proof.
  destruct (store_failures_surface parseISO_calendar toUpperCase_ascii)
    as (Hadd & Hdel & Hcreate & Hcancel & _ & Hlog).
  split; [| split; [| split; [| split]]].
  - destruct (Hadd emptyAddingDown (flatP1_2A "2024-02-10") userX "unavailable")
      as [H _].
    + reflexivity.
    + reflexivity.
    + vm_compute. apply le_n_S, Nat.le_0_l.
    + reflexivity.
    + exact H.
  - destruct (Hdel mondayDeletingDown "r1" userX monday "unavailable") as [H _].
    + reflexivity.
    + reflexivity.
    + reflexivity.
    + reflexivity.
    + exact H.
  - destruct (Hcreate emptyListingDown (flatP1_2A "2024-02-10") userX (docId 0)
                "unavailable") as (H1 & _ & H2 & _).
    + reflexivity.
    + reflexivity.
    + vm_compute. apply le_n_S, Nat.le_0_l.
    + reflexivity.
    + reflexivity.
    + split; [exact H1 | exact H2].
  - apply (Hcancel mondayListingDown "r1" userX monday (docId 0) "unavailable");
      reflexivity.
  - apply (Hlog (mondayOfX userX) "r1").
Defined.

(** A rejected listing leaves a cache that had fallen behind the collection
    exactly as it was: neither emptied nor brought up to date. *)
Lemma reload_failure_keeps_cache_witness :
  reservations staleListingDown = [monday] /\
  store staleListingDown = [monday; wednesday] /\
  reservations (snd (loadReservations staleListingDown)) = [monday] /\
  store (snd (loadReservations staleListingDown)) = [monday; wednesday] /\
  fst (loadReservations staleListingDown) = Ok tt /\
  toasts (snd (loadReservations staleListingDown)) =
    [toast_error "Error al cargar las reservas"] /\
  requests (snd (loadReservations staleListingDown)) = [GetDocs].
Proof.
  split; [reflexivity |]. split; [reflexivity |].
  apply (reload_failure_keeps_cache staleListingDown "unavailable").
  reflexivity.
Defined.


(** The request for [2024-01-01] is rejected where that text is cached; the
    request for [20240101] is not.  The count takes both texts for the same
    day, and does not take the Monday after for it. *)
Lemma uniqueness_compares_text_witness :
  fst (createIn (flatP1_3B "2024-01-01") (mondayOfX userY)) = Throw DateAlreadyReserved /\
  fst (createIn (flatP1_3B "20240101") (mondayOfX userY)) <> Throw DateAlreadyReserved /\
  countIn [monday; nextMonday] "P1" "2" "A" "20240101" =
    (1 + countIn [nextMonday] "P1" "2" "A" "20240101")%nat /\
  countIn [nextMonday] "P1" "2" "A" "20240101" =
    (0 + countIn [] "P1" "2" "A" "20240101")%nat /\
  countIn [withDate "20240101" monday] "P1" "2" "A" "2024-01-01" =
    countIn [monday] "P1" "2" "A" "2024-01-01".
Proof.
  destruct uniqueness_compares_text as (H & _ & _ & Hcons & Hdates & _).
  split; [| split; [| split; [| split]]].
  - apply (H parseISO_calendar toUpperCase_ascii (mondayOfX userY)
             (flatP1_3B "2024-01-01")).
    + discriminate.
    + exists monday. split; [left |]; reflexivity.
  - intros E.
    apply (H parseISO_calendar toUpperCase_ascii (mondayOfX userY)
             (flatP1_3B "20240101")) in E.
    + destruct E as (r & [<- | []] & Hd). discriminate.
    + discriminate.
  - apply (Hcons parseISO_calendar toUpperCase_ascii monday [nextMonday]).
  - apply (Hcons parseISO_calendar toUpperCase_ascii nextMonday []).
  - apply (Hdates parseISO_calendar toUpperCase_ascii [monday]
             (fun r => if String.eqb (date r) "2024-01-01" then "20240101" else date r)).
    intros r. destruct (String.eqb_spec (date r) "2024-01-01") as [E | _].
    + rewrite E. reflexivity.
    + reflexivity.
Defined.

(** * Further properties of the provider *)

(** The two ways a reload ends, as a case split on the collection's answer. *)
Ltac load_cases w1 :=
  let Hl := fresh "Hl" in
  let cause := fresh "cause" in
  let i := fresh "i" in
  destruct (backend w1 (length (requests w1)) GetDocs) as [cause | i] eqn:Hl;
  [ rewrite (loadReservations_failed w1 cause Hl)
  | rewrite (loadReservations_served w1 i Hl) ].

Section Effects.

Variable parseISO : string -> JsDate.t.
Variable toUpperCase : string -> string.

Local Abbreviation create := (createReservation parseISO toUpperCase).
Local Abbreviation weeklyCount := (weekly parseISO toUpperCase).
Local Abbreviation getCount := (getWeeklyApartmentReservationsCount parseISO toUpperCase).

(** X1.  With an empty cache, as before the first reload or after a failed
    one, a signed-in user's [createReservation] is rejected by neither
    check, whatever the collection holds: the record is sent, and if the
    collection takes it the collection has it, even next to a record with
    the same date. *)
Theorem create_on_empty_cache (w : World) (data : ReservationData) (u : User) :
  reservations w = [] ->
  user w = Some u ->
  (exists rest,
     requests (snd (create data w)) =
     (requests w ++ AddDoc data (uid u) (clock w) :: rest)%list) /\
  (fst (create data w) = Ok tt \/
   exists cause, fst (create data w) = Throw (StoreError cause)) /\
  (forall newId,
     backend w (length (requests w)) (AddDoc data (uid u) (clock w)) = Done newId ->
     fst (create data w) = Ok tt /\
     store (snd (create data w)) =
     (store w ++ [document newId data (uid u) (clock w)])%list).
Proof.
  intros Hc Hu.
  assert (taken data w = None) as Ht by (unfold taken; rewrite Hc; reflexivity).
  assert (weeklyCount data w = 0%nat) as Hq.
  { unfold weekly, getWeeklyApartmentReservationsCount. rewrite Hc. reflexivity. }
  destruct (backend w (length (requests w)) (AddDoc data (uid u) (clock w)))
    as [cause | newId] eqn:Hb.
  - rewrite (create_store_fails parseISO toUpperCase data w u cause Hu Ht); [| lia | exact Hb].
    simpl. split; [| split].
    + exists []. reflexivity.
    + right. exists cause. reflexivity.
    + discriminate.
  - rewrite (create_added parseISO toUpperCase data w u newId Hu Ht); [| lia | exact Hb].
    match goal with |- context [loadReservations ?w1] =>
      pose proof (loadReservations_resolves w1) as Hr;
      pose proof (loadReservations_frame w1) as (Hs & _ & _ & Hrq & _)
    end.
    rewrite Hr, Hs, Hrq. simpl. split; [| split].
    + exists [GetDocs]. rewrite <- app_assoc. reflexivity.
    + left. reflexivity.
    + intros newId' E. injection E as <-. split; reflexivity.
Qed.

(** X2.  No event changes the collection's behaviour or the clock; the
    request log and the toasts only grow, the log by at most two requests
    per event; and the signed-in user changes only when the authentication
    state does. *)
Theorem handle_frame (ev : Event) (w : World) :
  let w' := snd (handle parseISO toUpperCase ev w) in
  backend w' = backend w /\
  clock w' = clock w /\
  (exists rqs, requests w' = (requests w ++ rqs)%list /\ (length rqs <= 2)%nat) /\
  (exists ts, toasts w' = (toasts w ++ ts)%list) /\
  ((forall u, ev <> AuthStateChanged u) -> user w' = user w).
Proof.
  assert (forall w0 : World,
            let w1 := snd (loadReservations w0) in
            backend w1 = backend w0 /\ clock w1 = clock w0 /\
            (exists rqs, requests w1 = (requests w0 ++ rqs)%list /\ (length rqs <= 1)%nat) /\
            (exists ts, toasts w1 = (toasts w0 ++ ts)%list) /\
            user w1 = user w0) as Hload.
  { intros w0. load_cases w0; simpl; repeat split;
      try (exists [GetDocs]; split; [reflexivity | simpl; lia]);
      try (eexists; reflexivity).
    exists []. symmetry. apply app_nil_r. }
  destruct ev as [data | id0 | | u]; simpl.
  - destruct (create_cases parseISO toUpperCase data w) as
      [[Hu E] | [(u & r & Hu & Ht & E) | [(u & Hu & Ht & Hq & E) |
       [(u & cause & Hu & Ht & Hq & Hb & E) | (u & newId & Hu & Ht & Hq & Hb & E)]]]];
      rewrite E.
    1-3: simpl; repeat split;
      [ exists []; split; [symmetry; apply app_nil_r | simpl; lia]
      | eexists; reflexivity ].
    + simpl. repeat split; [| eexists; reflexivity].
      eexists. split; [reflexivity | simpl; lia].
    + match goal with |- context [loadReservations ?w1] =>
        destruct (Hload w1) as (Hb' & Hc & (rqs & Hrq & Hlen) & (ts & Hts) & Hu')
      end.
      rewrite Hb', Hc, Hrq, Hts, Hu'. simpl. repeat split.
      * exists (AddDoc data (uid u) (clock w) :: rqs).
        rewrite <- app_assoc. split; [reflexivity | simpl; lia].
      * exists ts. reflexivity.
  - destruct (user w) as [u |] eqn:Hu.
    2:{ rewrite (cancel_unauthenticated id0 w Hu). simpl. repeat split;
          [ exists []; split; [symmetry; apply app_nil_r | simpl; lia]
          | eexists; reflexivity | auto ]. }
    destruct (found id0 w) as [r |] eqn:Hf.
    2:{ rewrite (cancel_not_found id0 w u Hu Hf). simpl. repeat split;
          [ exists []; split; [symmetry; apply app_nil_r | simpl; lia]
          | eexists; reflexivity | auto ]. }
    destruct (String.eqb_spec (userId r) (uid u)) as [Ho | Ho].
    2:{ rewrite (cancel_forbidden id0 w u r Hu Hf Ho). simpl. repeat split;
          [ exists []; split; [symmetry; apply app_nil_r | simpl; lia]
          | eexists; reflexivity | auto ]. }
    destruct (backend w (length (requests w)) (DeleteDoc id0)) as [cause | i] eqn:Hb.
    { rewrite (cancel_store_fails id0 w u r cause Hu Hf Ho Hb). simpl. repeat split;
        [ eexists; split; [reflexivity | simpl; lia]
        | eexists; reflexivity | auto ]. }
    rewrite (cancel_deleted id0 w u r i Hu Hf Ho Hb).
    match goal with |- context [loadReservations ?w1] =>
      destruct (Hload w1) as (Hb' & Hc & (rqs & Hrq & Hlen) & (ts & Hts) & Hu')
    end.
    rewrite Hb', Hc, Hrq, Hts, Hu'. simpl. repeat split.
    + exists (DeleteDoc id0 :: rqs).
      rewrite <- app_assoc. split; [reflexivity | simpl; lia].
    + exists (toast_success "Reserva cancelada con éxito" :: ts).
      rewrite <- app_assoc. reflexivity.
    + auto.
  - destruct (Hload w) as (Hb' & Hc & (rqs & Hrq & Hlen) & (ts & Hts) & Hu').
    rewrite Hb', Hc, Hrq, Hts, Hu'. repeat split.
    + exists rqs. split; [reflexivity | lia].
    + exists ts. reflexivity.
  - repeat split.
    + exists []. split; [symmetry; apply app_nil_r | simpl; lia].
    + exists []. symmetry. apply app_nil_r.
    + intros H. elim (H u). reflexivity.
Qed.

End Effects.

(** ** Creation and cancellation together *)

Lemma find_app_last {A : Type} (f : A -> bool) (l : list A) (y : A) :
  (forall x, In x l -> f x = false) ->
  f y = true ->
  find f (l ++ [y]) = Some y.
Proof.
  intros Hl Hy. induction l as [| x l IH]; simpl.
  - rewrite Hy. reflexivity.
  - rewrite (Hl x (or_introl eq_refl)). apply IH.
    intros z Hz. apply Hl. right. exact Hz.
Qed.

Lemma filter_other_ids_fresh (id0 : string) (rs : list Reservation) :
  ~ In id0 (map id rs) ->
  filter (fun r => negb (String.eqb (id r) id0)) rs = rs.
Proof.
  induction rs as [| r rs IH]; simpl; intros H; [reflexivity |].
  destruct (String.eqb_spec (id r) id0) as [E | E]; simpl.
  - elim H. left. exact E.
  - rewrite IH; [reflexivity |]. intros Hin. apply H. right. exact Hin.
Qed.

Lemma no_id_of_fresh (id0 : string) (rs : list Reservation) :
  ~ In id0 (map id rs) ->
  forall r, In r rs -> String.eqb (id r) id0 = false.
Proof.
  intros H r Hin. apply String.eqb_neq. intros E. apply H.
  apply in_map_iff. exists r. auto.
Qed.

(** Taking the one record with a given id out of a list lowers the number of
    records that satisfy a predicate by one if that record satisfies it. *)
Lemma filter_out_unique (P : Reservation -> bool) (id0 : string)
    (rs : list Reservation) (r : Reservation) :
  NoDup (map id rs) ->
  find (fun x => String.eqb (id x) id0) rs = Some r ->
  (length (filter P (filter (fun x => negb (String.eqb (id x) id0)) rs)) +
   (if P r then 1 else 0) = length (filter P rs))%nat.
Proof.
  induction rs as [| x rs IH]; simpl; intros Hnd Hf; [discriminate |].
  apply NoDup_cons_iff in Hnd. destruct Hnd as [Hx Hnd].
  destruct (String.eqb_spec (id x) id0) as [E | E]; simpl.
  - injection Hf as <-. subst id0.
    rewrite (filter_other_ids_fresh (id x) rs Hx).
    destruct (P x); simpl; lia.
  - specialize (IH Hnd Hf). destruct (P x); simpl; lia.
Qed.

Lemma find_id_unique (id0 : string) (rs : list Reservation) (r r' : Reservation) :
  NoDup (map id rs) ->
  find (fun x => String.eqb (id x) id0) rs = Some r ->
  In r' rs -> id r' = id0 -> r' = r.
Proof.
  induction rs as [| x rs IH]; simpl; intros Hnd Hf Hin E; [contradiction |].
  apply NoDup_cons_iff in Hnd. destruct Hnd as [Hx Hnd].
  destruct (String.eqb_spec (id x) id0) as [Ex | Ex].
  - injection Hf as <-. destruct Hin as [<- | Hin]; [reflexivity |].
    elim Hx. apply in_map_iff. exists r'. split; [congruence | exact Hin].
  - destruct Hin as [<- | Hin]; [contradiction |]. now apply IH.
Qed.

(** The world after a cancellation that the collection served and a reload
    that it served too. *)
Lemma cancel_served_reloaded (id0 : string) (w : World) (u : User)
    (r : Reservation) (i : string) :
  listingServed w ->
  user w = Some u ->
  found id0 w = Some r ->
  userId r = uid u ->
  backend w (length (requests w)) (DeleteDoc id0) = Done i ->
  store (snd (cancelReservation id0 w)) =
    filter (fun x => negb (String.eqb (id x) id0)) (store w) /\
  reservations (snd (cancelReservation id0 w)) =
    filter (fun x => negb (String.eqb (id x) id0)) (store w).
Proof.
  intros Hl Hu Hf Ho Hb.
  rewrite (cancel_deleted id0 w u r i Hu Hf Ho Hb).
  match goal with |- context [loadReservations ?w1] =>
    destruct (loadReservations_synced w1) as (Es & _ & Ec); [exact Hl |]
  end.
  rewrite Es, Ec. simpl. auto.
Qed.

Section Composition.

Variable parseISO : string -> JsDate.t.
Variable toUpperCase : string -> string.

Local Abbreviation create := (createReservation parseISO toUpperCase).
Local Abbreviation weeklyCount := (weekly parseISO toUpperCase).
Local Abbreviation getCount := (getWeeklyApartmentReservationsCount parseISO toUpperCase).

(** The world after a creation that the collection took and a reload that
    it served. *)
Lemma create_served_reloaded (data : ReservationData) (w : World) (u : User)
    (newId : string) :
  listingServed w ->
  user w = Some u ->
  taken data w = None ->
  (weeklyCount data w < 2)%nat ->
  backend w (length (requests w)) (AddDoc data (uid u) (clock w)) = Done newId ->
  let w' := snd (create data w) in
  store w' = (store w ++ [document newId data (uid u) (clock w)])%list /\
  reservations w' = store w' /\
  requests w' = (requests w ++ [AddDoc data (uid u) (clock w); GetDocs])%list /\
  user w' = user w /\ backend w' = backend w.
Proof.
  intros Hl Hu Ht Hq Hb.
  rewrite (create_added parseISO toUpperCase data w u newId Hu Ht Hq Hb).
  match goal with |- context [loadReservations ?w1] =>
    destruct (Hl (length (requests w1))) as [i Hi];
    rewrite (loadReservations_served w1 i Hi)
  end.
  simpl. rewrite <- app_assoc. auto.
Qed.

(** X3.  Round trip.  In a provider whose cache is in step with the
    collection and whose listings are served, cancelling a reservation that
    was just created under an id the collection did not have before leaves
    the collection, and the cache, as they were before the creation. *)
Theorem create_then_cancel_restores (w : World) (data : ReservationData)
    (u : User) (newId i : string) :
  listingServed w ->
  synced w ->
  user w = Some u ->
  taken data w = None ->
  (weeklyCount data w < 2)%nat ->
  backend w (length (requests w)) (AddDoc data (uid u) (clock w)) = Done newId ->
  ~ In newId (map id (store w)) ->
  backend w (length (requests w) + 2) (DeleteDoc newId) = Done i ->
  let w1 := snd (create data w) in
  let w2 := snd (cancelReservation newId w1) in
  fst (create data w) = Ok tt /\
  store w2 = store w /\
  reservations w2 = store w.
Proof.
  intros Hl Hs Hu Ht Hq Hb Hfresh Hd w1 w2.
  destruct (create_served_reloaded data w u newId Hl Hu Ht Hq Hb)
    as (Es & Ec & Erq & Eu & Eb).
  fold w1 in Es, Ec, Erq, Eu, Eb.
  set (record := document newId data (uid u) (clock w)) in *.
  assert (found newId w1 = Some record) as Hf.
  { unfold found. rewrite Ec, Es. apply find_app_last.
    - apply no_id_of_fresh. exact Hfresh.
    - simpl. apply String.eqb_refl. }
  assert (listingServed w1) as Hl1.
  { intros n. unfold listingServed in Hl. rewrite Eb. apply Hl. }
  destruct (cancel_served_reloaded newId w1 u record i) as [Es2 Ec2]; try assumption.
  - congruence.
  - reflexivity.
  - rewrite Eb, Erq, length_app. simpl. exact Hd.
  - fold w2 in Es2, Ec2. split.
    + rewrite (create_added parseISO toUpperCase data w u newId Hu Ht Hq Hb).
      apply loadReservations_resolves.
    + assert (filter (fun x => negb (String.eqb (id x) newId)) (store w1) = store w)
        as E.
      { rewrite Es, filter_app, (filter_other_ids_fresh newId (store w) Hfresh).
        simpl. rewrite String.eqb_refl. simpl. apply app_nil_r. }
      rewrite Es2, Ec2, E. auto.
Qed.

(** X4.  Scenario C in general.  When the owner cancels a reservation of a
    collection with distinct ids, and the deletion and the reload are
    served, the weekly count of every unit and target date over the cache
    goes down by one if the cancelled reservation was counted there and
    stays as it was otherwise. *)
Theorem cancel_lowers_count (w : World) (id0 : string) (u : User)
    (r : Reservation) (i : string) (p f d date0 : string) :
  listingServed w ->
  synced w ->
  NoDup (map id (store w)) ->
  user w = Some u ->
  found id0 w = Some r ->
  userId r = uid u ->
  backend w (length (requests w)) (DeleteDoc id0) = Done i ->
  (getCount (reservations (snd (cancelReservation id0 w))) p f d date0 +
   (if inCalendarWeekOf (parseISO date0) (parseISO (date r)) &&
       sameUnit toUpperCase p f d r
    then 1 else 0) =
   getCount (reservations w) p f d date0)%nat.
Proof.
  intros Hl Hs Hnd Hu Hf Ho Hb.
  destruct (cancel_served_reloaded id0 w u r i Hl Hu Hf Ho Hb) as [_ Ec].
  rewrite Ec, !getCount_countInWeek. unfold countInWeek.
  unfold found in Hf. rewrite Hs in *.
  apply (filter_out_unique
           (fun x => inCalendarWeekOf (parseISO date0) (parseISO (date x)) &&
                     sameUnit toUpperCase p f d x) id0 (store w) r Hnd Hf).
Qed.

End Composition.

(** X5.  I3 on the collection.  In a provider whose cache is in step with a
    collection of distinct ids, [cancelReservation] adds no record, and
    every record it removes has the given id and belongs to the signed-in
    user. *)
Theorem cancel_removes_only_own (w : World) (id0 : string) :
  synced w ->
  NoDup (map id (store w)) ->
  let w' := snd (cancelReservation id0 w) in
  (forall r, In r (store w') -> In r (store w)) /\
  (forall r, In r (store w) -> ~ In r (store w') ->
     id r = id0 /\ exists u, user w = Some u /\ userId r = uid u).
Proof.
  intros Hs Hnd w'. subst w'.
  destruct (user w) as [u |] eqn:Hu.
  2:{ rewrite (cancel_unauthenticated id0 w Hu). simpl. split; [auto | tauto]. }
  destruct (found id0 w) as [r0 |] eqn:Hf.
  2:{ rewrite (cancel_not_found id0 w u Hu Hf). simpl. split; [auto | tauto]. }
  destruct (String.eqb_spec (userId r0) (uid u)) as [Ho | Ho].
  2:{ rewrite (cancel_forbidden id0 w u r0 Hu Hf Ho). simpl. split; [auto | tauto]. }
  destruct (backend w (length (requests w)) (DeleteDoc id0)) as [cause | i] eqn:Hb.
  { rewrite (cancel_store_fails id0 w u r0 cause Hu Hf Ho Hb). simpl.
    split; [auto | tauto]. }
  rewrite (cancel_deleted id0 w u r0 i Hu Hf Ho Hb).
  match goal with |- context [loadReservations ?w1] =>
    pose proof (loadReservations_frame w1) as (Es & _)
  end.
  rewrite Es. simpl. split.
  - intros r Hin. apply filter_In in Hin. tauto.
  - intros r Hin Hout.
    assert (id r = id0) as E.
    { destruct (String.eqb_spec (id r) id0) as [E | E]; [exact E |].
      elim Hout. apply filter_In. split; [exact Hin |].
      apply negb_true_iff, String.eqb_neq. exact E. }
    split; [exact E |]. exists u. split; [reflexivity |].
    unfold found in Hf. rewrite Hs in Hf.
    rewrite (find_id_unique id0 (store w) r0 r Hnd Hf Hin E). exact Ho.
Qed.

(** ** What the user is shown *)

Section Toasts.

Variable parseISO : string -> JsDate.t.
Variable toUpperCase : string -> string.

Local Abbreviation create := (createReservation parseISO toUpperCase).

(** X6.  [createReservation] shows exactly one error toast when it throws:
    the request to sign in for a missing user, and otherwise the message of
    the error thrown, or a default text when that message is empty.  When it
    resolves it shows nothing, unless the reload failed; it never shows a
    success toast. *)
Theorem create_toasts (w : World) (data : ReservationData) :
  let w' := snd (create data w) in
  (fst (create data w) = Throw Unauthenticated ->
   toasts w' =
   (toasts w ++ [toast_error "Debes iniciar sesión para hacer una reserva"])%list) /\
  (forall e, e <> Unauthenticated -> fst (create data w) = Throw e ->
   toasts w' =
   (toasts w ++ [toast_error (orElse (message e) "Error al crear la reserva")])%list) /\
  (fst (create data w) = Ok tt ->
   toasts w' = toasts w \/
   toasts w' = (toasts w ++ [toast_error "Error al cargar las reservas"])%list) /\
  (forall msg, In (toast_success msg) (toasts w') -> In (toast_success msg) (toasts w)).
Proof.
  intros w'. subst w'.
  assert (forall (ts : list Toast) (m msg : string),
            In (toast_success msg) (ts ++ [toast_error m]) -> In (toast_success msg) ts)
    as Hin.
  { intros ts m msg H. apply in_app_or in H.
    destruct H as [H | [H | []]]; [exact H | discriminate]. }
  destruct (create_cases parseISO toUpperCase data w) as
    [[Hu E] | [(u & r & Hu & Ht & E) | [(u & Hu & Ht & Hq & E) |
     [(u & cause & Hu & Ht & Hq & Hb & E) | (u & newId & Hu & Ht & Hq & Hb & E)]]]];
    rewrite E.
  1-4: simpl; split; [| split; [| split]];
    [ try discriminate; reflexivity
    | intros e Hne He; injection He as <-; try reflexivity; now elim Hne
    | discriminate
    | apply Hin ].
  match goal with |- context [loadReservations ?w1] => load_cases w1 end; simpl.
  - split; [| split; [| split]];
      [ discriminate | intros e _ He; discriminate | auto | apply Hin ].
  - split; [| split; [| split]];
      [ discriminate | intros e _ He; discriminate | auto | auto ].
Qed.

End Toasts.

(** X7.  [cancelReservation] always shows a toast.  The success toast is
    among the toasts it shows exactly when a user is signed in, the cache has
    a reservation with the id, that reservation is the user's and the
    collection served the deletion; a reload that fails afterwards does not
    take it back. *)
Theorem cancel_toasts (w : World) (id0 : string) :
  exists ts,
    toasts (snd (cancelReservation id0 w)) = (toasts w ++ ts)%list /\
    ts <> [] /\
    (In (toast_success "Reserva cancelada con éxito") ts <->
     exists u r i,
       user w = Some u /\ found id0 w = Some r /\ userId r = uid u /\
       backend w (length (requests w)) (DeleteDoc id0) = Done i).
Proof.
  destruct (user w) as [u |] eqn:Hu.
  2:{ rewrite (cancel_unauthenticated id0 w Hu). simpl. eexists.
      split; [reflexivity |]. split; [discriminate |]. split.
      - intros [H | []]. discriminate.
      - intros (u & r & i & H & _). discriminate. }
  destruct (found id0 w) as [r |] eqn:Hf.
  2:{ rewrite (cancel_not_found id0 w u Hu Hf). simpl. eexists.
      split; [reflexivity |]. split; [discriminate |]. split.
      - intros [H | []]. discriminate.
      - intros (u' & r & i & _ & H & _). discriminate. }
  destruct (String.eqb_spec (userId r) (uid u)) as [Ho | Ho].
  2:{ rewrite (cancel_forbidden id0 w u r Hu Hf Ho). simpl. eexists.
      split; [reflexivity |]. split; [discriminate |]. split.
      - intros [H | []]. discriminate.
      - intros (u' & r' & i & Hu' & Hr' & Ho' & _). congruence. }
  destruct (backend w (length (requests w)) (DeleteDoc id0)) as [cause | i] eqn:Hb.
  { rewrite (cancel_store_fails id0 w u r cause Hu Hf Ho Hb). simpl. eexists.
    split; [reflexivity |]. split; [discriminate |]. split.
    - intros [H | []]. discriminate.
    - intros (u' & r' & i & _ & _ & _ & H). discriminate. }
  rewrite (cancel_deleted id0 w u r i Hu Hf Ho Hb).
  match goal with |- context [loadReservations ?w1] => load_cases w1 end; simpl.
  - exists [toast_success "Reserva cancelada con éxito";
            toast_error "Error al cargar las reservas"].
    split; [rewrite <- app_assoc; reflexivity |]. split; [discriminate |]. split.
    + intros _. exists u, r, i. auto.
    + intros _. left. reflexivity.
  - exists [toast_success "Reserva cancelada con éxito"].
    split; [reflexivity |]. split; [discriminate |]. split.
    + intros _. exists u, r, i. auto.
    + intros _. left. reflexivity.
Qed.

(** ** More on the weekly count *)

Section CountEdges.

Variable parseISO : string -> JsDate.t.
Variable toUpperCase : string -> string.

Local Abbreviation create := (createReservation parseISO toUpperCase).
Local Abbreviation weeklyCount := (weekly parseISO toUpperCase).
Local Abbreviation getCount := (getWeeklyApartmentReservationsCount parseISO toUpperCase).

(** X8.  Dates that do not parse are outside the quota: the count for a
    target that does not parse is 0, a reservation whose date does not parse
    is counted for no unit and no week, and a request for such a date is
    never rejected with [WeeklyQuotaExceeded]. *)
Theorem unparsable_date_is_never_counted :
  (forall (rs : list Reservation) (p f d date0 : string),
     parseISO date0 = None ->
     getWeeklyApartmentReservationsCount parseISO toUpperCase rs p f d date0 = 0%nat) /\
  (forall (r : Reservation) (rs : list Reservation) (p f d date0 : string),
     parseISO (date r) = None ->
     getWeeklyApartmentReservationsCount parseISO toUpperCase (r :: rs) p f d date0 =
     getWeeklyApartmentReservationsCount parseISO toUpperCase rs p f d date0) /\
  (forall (w : World) (data : ReservationData),
     parseISO (data_date data) = None ->
     fst (createReservation parseISO toUpperCase data w) <> Throw WeeklyQuotaExceeded).
Proof.
  assert (forall rs p f d date0,
            parseISO date0 = None -> getCount rs p f d date0 = 0%nat) as H0.
  { intros rs p f d date0 H. rewrite getCount_countInWeek, H. unfold countInWeek.
    induction rs as [| r rs IH]; [reflexivity | exact IH]. }
  split; [exact H0 | split].
  - intros r rs p f d date0 H.
    rewrite !getCount_countInWeek, countInWeek_cons, H.
    destruct (parseISO date0); reflexivity.
  - intros w data H E.
    apply create_quota_decision in E. destruct E as (_ & _ & E).
    unfold weekly in E. rewrite H0 in E by exact H. lia.
Qed.

(** X9.  The count is the same for every target date of one week: if the
    second target passes the two comparisons of the filter against the week
    of the first, both targets give the same count. *)
Theorem count_same_week (rs : list Reservation) (p f d date0 date1 : string) :
  JsDate.geb (parseISO date1) (JsDate.startOfWeek (parseISO date0) 1) = true ->
  JsDate.leb (parseISO date1) (JsDate.endOfWeek (parseISO date0) 1) = true ->
  getCount rs p f d date0 = getCount rs p f d date1.
Proof.
  intros Hge Hle.
  assert (inCalendarWeekOf (parseISO date0) (parseISO date1) = true) as Hw.
  { rewrite <- window_calendar, Hge, Hle. reflexivity. }
  destruct (parseISO date0) as [ms |] eqn:E0; [| discriminate].
  destruct (parseISO date1) as [ms' |] eqn:E1; [| discriminate].
  rewrite !getCount_countInWeek, E0, E1. unfold countInWeek.
  f_equal. apply filter_ext. intros r.
  rewrite (inCalendarWeekOf_same_week ms ms' _ Hw). reflexivity.
Qed.

Lemma filter_length_permutation {A : Type} (P : A -> bool) (l l' : list A) :
  Permutation l l' -> length (filter P l) = length (filter P l').
Proof.
  induction 1 as [| x l l' _ IH | x y l | l l' l'' _ IH1 _ IH2]; simpl.
  - reflexivity.
  - destruct (P x); simpl; congruence.
  - destruct (P x), (P y); reflexivity.
  - congruence.
Qed.

Lemma find_none_permutation {A : Type} (P : A -> bool) (l l' : list A) :
  Permutation l l' -> find P l = None -> find P l' = None.
Proof.
  intros Hp Hn.
  destruct (find P l') as [x |] eqn:E; [| reflexivity].
  apply find_some in E. destruct E as [Hin Hx].
  apply Permutation_sym in Hp.
  rewrite (find_none P l Hn x (Permutation_in x Hp Hin)) in Hx. discriminate.
Qed.

(** The outcome of [createReservation] depends on the cache only through
    the two checks. *)
Lemma create_outcome_ext (data : ReservationData) (w1 w2 : World) :
  user w1 = user w2 ->
  backend w1 = backend w2 ->
  requests w1 = requests w2 ->
  clock w1 = clock w2 ->
  (taken data w1 = None <-> taken data w2 = None) ->
  weeklyCount data w1 = weeklyCount data w2 ->
  fst (create data w1) = fst (create data w2).
Proof.
  intros Eu Eb Er Ec Et Eq.
  destruct (create_cases parseISO toUpperCase data w1) as
    [[Hu E] | [(u & r & Hu & Ht & E) | [(u & Hu & Ht & Hq & E) |
     [(u & cause & Hu & Ht & Hq & Hb & E) | (u & newId & Hu & Ht & Hq & Hb & E)]]]];
    rewrite E; rewrite Eu in Hu.
  - rewrite (create_unauthenticated parseISO toUpperCase data w2 Hu). reflexivity.
  - destruct (taken data w2) as [r' |] eqn:Ht2.
    + rewrite (create_taken parseISO toUpperCase data w2 u r' Hu Ht2). reflexivity.
    + rewrite (proj2 Et eq_refl) in Ht. discriminate.
  - rewrite (create_quota parseISO toUpperCase data w2 u Hu); [reflexivity | tauto | lia].
  - rewrite (create_store_fails parseISO toUpperCase data w2 u cause Hu);
      [reflexivity | tauto | lia | congruence].
  - rewrite (create_added parseISO toUpperCase data w2 u newId Hu);
      [| tauto | lia | congruence].
    rewrite !loadReservations_resolves. reflexivity.
Qed.

(** X10.  The order of the cached list does not matter to the count or to
    the outcome of [createReservation]. *)
Theorem cache_order_is_irrelevant (rs rs' : list Reservation) :
  Permutation rs rs' ->
  (forall p f d date0, getCount rs p f d date0 = getCount rs' p f d date0) /\
  (forall w data,
     fst (create data (withReservations rs w)) =
     fst (create data (withReservations rs' w))).
Proof.
  intros Hp.
  assert (forall p f d date0, getCount rs p f d date0 = getCount rs' p f d date0)
    as Hc.
  { intros p f d date0. unfold getWeeklyApartmentReservationsCount.
    now apply filter_length_permutation. }
  split; [exact Hc |].
  intros w data. apply create_outcome_ext; try reflexivity.
  - unfold taken. simpl. split; apply find_none_permutation;
      [exact Hp | apply Permutation_sym; exact Hp].
  - unfold weekly. simpl. apply Hc.
Qed.

(** X11.  An accepted create for a date that parses, followed by a served
    reload, raises the weekly count of its own unit and date by exactly
    one. *)
Theorem accepted_create_counts_once (w : World) (data : ReservationData)
    (u : User) (i : string) (ms : Z) :
  synced w ->
  user w = Some u ->
  fst (create data w) = Ok tt ->
  backend w (S (length (requests w))) GetDocs = Done i ->
  parseISO (data_date data) = Some ms ->
  weeklyCount data (snd (create data w)) = S (weeklyCount data w).
Proof.
  intros Hs Hu Hok Hb Hp.
  destruct (create_accepted_reloaded parseISO toUpperCase data w u i Hu Hok Hb)
    as (newId & Es & Ec).
  unfold weekly. rewrite Ec, Es, Hs, !getCount_countInWeek, countInWeek_app.
  rewrite countInWeek_cons. simpl date. rewrite Hp.
  change (countInWeek parseISO toUpperCase [] (data_portal data) (data_floor data)
            (data_door data) (Some ms)) with 0%nat.
  replace (inCalendarWeekOf (Some ms) (Some ms)) with true.
  - unfold sameUnit. simpl. rewrite !String.eqb_refl. simpl. lia.
  - symmetry. simpl. pose proof (mondayOf_bounds ms).
    apply andb_true_iff. rewrite !Z.leb_le. lia.
Qed.

End CountEdges.

(** ** Mounting the provider *)

Section Mount.

Variable parseISO : string -> JsDate.t.
Variable toUpperCase : string -> string.

Lemma run_consistent (evs : list Event) (w : World) :
  Consistent parseISO toUpperCase w ->
  Consistent parseISO toUpperCase (run parseISO toUpperCase evs w).
Proof.
  revert w. induction evs as [| ev evs IH]; intros w Hc; simpl.
  - exact Hc.
  - apply IH. now apply handle_consistent.
Qed.

(** X12.  The mount effect asks for one listing and leaves the collection
    alone.  If the listing is served the cache is the collection's content,
    and if moreover the collection satisfies I1 and I2 and serves every later
    listing, it satisfies them after every sequence of events.  If the
    listing fails the cache stays empty and one error toast is shown. *)
Theorem mount_loads_cache (docs : list Reservation)
    (answers : nat -> Request -> Reply) (u : option User) :
  let w := mountProvider docs answers u in
  store w = docs /\
  requests w = [GetDocs] /\
  (forall i, answers 0%nat GetDocs = Done i -> reservations w = docs /\ toasts w = []) /\
  (forall cause, answers 0%nat GetDocs = Fails cause ->
     reservations w = [] /\
     toasts w = [toast_error "Error al cargar las reservas"]) /\
  ((forall n, exists i, answers n GetDocs = Done i) ->
   I1 docs -> I2 parseISO toUpperCase docs ->
   forall evs,
     I1 (store (run parseISO toUpperCase evs w)) /\
     I2 parseISO toUpperCase (store (run parseISO toUpperCase evs w)) /\
     synced (run parseISO toUpperCase evs w)).
Proof.
  intros w. subst w. unfold mountProvider.
  set (w0 := provider docs answers u).
  destruct (answers 0%nat GetDocs) as [cause | i] eqn:Ha.
  - rewrite (loadReservations_failed w0 cause Ha). simpl.
    split; [reflexivity |]. split; [reflexivity |]. split; [discriminate |].
    split; [auto |].
    intros Hl. destruct (Hl 0%nat) as [i Hi]. congruence.
  - rewrite (loadReservations_served w0 i Ha). simpl.
    split; [reflexivity |]. split; [reflexivity |]. split; [auto |].
    split; [discriminate |].
    intros Hl H1 H2 evs.
    match goal with |- context [run _ _ evs ?w1] =>
      destruct (run_consistent evs w1) as (_ & Hs & H1' & H2')
    end.
    + unfold Consistent, synced, listingServed. simpl. auto.
    + auto.
Qed.

End Mount.

(** ** AuthContext *)

Lemma auth_handle_calls (ev : Auth.Event) (s : Auth.State) :
  Auth.service (Auth.handle ev s) = Auth.service s /\
  length (Auth.calls (Auth.handle ev s)) =
    (length (Auth.calls s) +
     match ev with Auth.StateChanged _ => 0 | _ => 1 end)%nat /\
  Auth.loading (Auth.handle ev s) =
    match ev with Auth.StateChanged _ => false | _ => Auth.loading s end /\
  Auth.user (Auth.handle ev s) =
    match ev with Auth.StateChanged u => u | _ => Auth.user s end.
Proof.
  destruct ev as [email password | email password | | u]; simpl;
    unfold Auth.signUp, Auth.signIn, Auth.logout, Auth.await;
    try (destruct (Auth.service s _ _) as [error |]; simpl;
         try destruct (String.eqb _ _); simpl;
         rewrite ?length_app; simpl; auto).
  repeat split. lia.
Qed.

(** What it is for a call [c] of Firebase Auth, made by an operation that
    ended as [r], to have been passed on: one call, one toast, the outcome
    of the call, and [user] and [loading] as before. *)
Local Abbreviation passedOn s c r granted refused :=
  (Auth.calls (snd r) = app (Auth.calls s) [c] /\
   Auth.user (snd r) = Auth.user s /\
   Auth.loading (snd r) = Auth.loading s /\
   (Auth.service s (length (Auth.calls s)) c = Auth.Granted ->
    fst r = Auth.Resolved /\
    Auth.toasts (snd r) = app (Auth.toasts s) [granted]) /\
   (forall error,
      Auth.service s (length (Auth.calls s)) c = Auth.Refused error ->
      fst r = Auth.Rejected error /\
      Auth.toasts (snd r) = app (Auth.toasts s) [refused error])).

(** X13.  [signUp], [signIn] and [logout] make one call each and end as the
    call ends: they resolve when it is granted and reject with the very
    error it was refused with.  Each shows one toast, a success toast in the
    first case and an error toast in the second; for [signUp] the error toast
    says that the e-mail is registered exactly when the error's code is
    [auth/email-already-in-use].  None of them touches [user] or [loading]. *)
Theorem auth_calls_rethrow (s : Auth.State) (email password : string) :
  passedOn s (Auth.CreateUserWithEmailAndPassword email password)
    (Auth.signUp email password s)
    (toast_success "Cuenta creada con éxito")
    (fun error =>
       if String.eqb (Auth.code error) "auth/email-already-in-use"
       then toast_error "Este email ya está registrado"
       else toast_error "Error al crear la cuenta") /\
  passedOn s (Auth.SignInWithEmailAndPassword email password)
    (Auth.signIn email password s)
    (toast_success "Sesión iniciada con éxito")
    (fun _ => toast_error "Email o contraseña incorrectos") /\
  passedOn s Auth.SignOut (Auth.logout s)
    (toast_success "Sesión cerrada con éxito")
    (fun _ => toast_error "Error al cerrar sesión").
Proof.
  unfold Auth.signUp, Auth.signIn, Auth.logout, Auth.await.
  repeat match goal with |- _ /\ _ => split end;
    try (destruct (Auth.service s _ _) as [e |]; simpl;
         try destruct (String.eqb _ _); reflexivity);
    try (intros H; rewrite H; simpl; split; reflexivity);
    intros error H; rewrite H; simpl;
    try destruct (String.eqb _ _); split; reflexivity.
Qed.

(** X14.  After any sequence of sign-ups, sign-ins, sign-outs and reports
    of the authentication state, [user] is what the last report said, or
    what it was if there was no report: the three operations never set it.
    The children are rendered from the first report on and for good. *)
Theorem auth_run_follows_reports (evs : list Auth.Event) (s : Auth.State) :
  Auth.user (Auth.run evs s) =
    match Auth.lastReported evs with
    | Some u => u
    | None => Auth.user s
    end /\
  Auth.rendersChildren (Auth.run evs s) =
    match Auth.lastReported evs with
    | Some _ => true
    | None => Auth.rendersChildren s
    end /\
  Auth.rendersChildren (Auth.run evs (Auth.initial (Auth.service s))) =
    match Auth.lastReported evs with
    | Some _ => true
    | None => false
    end.
Proof.
  assert (forall evs s,
            Auth.user (Auth.run evs s) =
              match Auth.lastReported evs with
              | Some u => u
              | None => Auth.user s
              end /\
            Auth.loading (Auth.run evs s) =
              match Auth.lastReported evs with
              | Some _ => false
              | None => Auth.loading s
              end) as H.
  { clear evs s. induction evs as [| ev evs IH]; intros s; [split; reflexivity |].
    cbn [Auth.run Auth.lastReported].
    destruct (IH (Auth.handle ev s)) as [Hu Hl]. rewrite Hu, Hl.
    destruct (auth_handle_calls ev s) as (_ & _ & El & Eu). rewrite El, Eu.
    destruct (Auth.lastReported evs) as [u |]; [split; reflexivity |].
    destruct ev; split; reflexivity. }
  unfold Auth.rendersChildren.
  destruct (H evs s) as [Hu Hl].
  destruct (H evs (Auth.initial (Auth.service s))) as [_ Hl0].
  rewrite Hu, Hl, Hl0.
  destruct (Auth.lastReported evs); repeat split; reflexivity.
Qed.

(** ** The further properties at work on the scenarios *)

(** A create in a provider whose cache is empty while the collection holds
    Monday's reservation: the same date is stored a second time. *)
Lemma create_on_empty_cache_witness :
  fst (createIn (flatP1_3B "2024-01-01") (provider [monday] serving (Some userY))) = Ok tt /\
  map date
    (store (snd (createIn (flatP1_3B "2024-01-01")
                   (provider [monday] serving (Some userY))))) =
  ["2024-01-01"; "2024-01-01"].
Proof.
  destruct (create_on_empty_cache parseISO_calendar toUpperCase_ascii
              (provider [monday] serving (Some userY)) (flatP1_3B "2024-01-01") userY)
    as (_ & _ & H).
  - reflexivity.
  - reflexivity.
  - destruct (H (docId 0)) as [Hok Hs]; [reflexivity |].
    split; [exact Hok |]. unfold createIn. rewrite Hs. reflexivity.
Defined.

(** A cancellation leaves the signed-in user as it was. *)
Lemma handle_frame_witness :
  user (snd (handle parseISO_calendar toUpperCase_ascii (Cancel "r1") (mondayOfX userX))) =
  Some userX.
Proof.
  destruct (handle_frame parseISO_calendar toUpperCase_ascii (Cancel "r1")
              (mondayOfX userX)) as (_ & _ & _ & _ & H).
  rewrite H; [reflexivity | discriminate].
Defined.

(** X creates a reservation for 2024-02-10 next to Monday's and cancels it. *)
Lemma create_then_cancel_restores_witness :
  store (snd (cancelReservation "doc0"
                (snd (createIn (flatP1_2A "2024-02-10") (mondayOfX userX))))) =
  [monday].
Proof.
  destruct (create_then_cancel_restores parseISO_calendar toUpperCase_ascii
              (mondayOfX userX) (flatP1_2A "2024-02-10") userX (docId 0) (docId 2))
    as (_ & H & _).
  - intros n. exists (docId n). reflexivity.
  - reflexivity.
  - reflexivity.
  - reflexivity.
  - vm_compute. apply le_n_S, Nat.le_0_l.
  - reflexivity.
  - simpl. intros [H | []]. discriminate.
  - reflexivity.
  - exact H.
Defined.

(** Scenario C: after X cancels Monday's reservation the flat's count for
    that week is one less. *)
Lemma cancel_lowers_count_witness :
  (countIn (reservations (snd (cancelReservation "r1" mondayWednesday)))
     "P1" "2" "A" "2024-01-05" + 1 =
   countIn (reservations mondayWednesday) "P1" "2" "A" "2024-01-05")%nat.
Proof.
  apply (cancel_lowers_count parseISO_calendar toUpperCase_ascii mondayWednesday
           "r1" userX monday (docId 0) "P1" "2" "A" "2024-01-05").
  - intros n. exists (docId n). reflexivity.
  - reflexivity.
  - simpl. repeat constructor; simpl; intuition discriminate.
  - reflexivity.
  - reflexivity.
  - reflexivity.
  - reflexivity.
Defined.

(** What X's cancellation removes from the collection is X's. *)
Lemma cancel_removes_only_own_witness :
  ~ In monday (store (snd (cancelReservation "r1" (mondayOfX userX)))) /\
  id monday = "r1" /\
  exists u, user (mondayOfX userX) = Some u /\ userId monday = uid u.
Proof.
  assert (~ In monday (store (snd (cancelReservation "r1" (mondayOfX userX)))))
    as Hout by (simpl; tauto).
  split; [exact Hout |].
  destruct (cancel_removes_only_own (mondayOfX userX) "r1") as [_ H].
  - reflexivity.
  - simpl. repeat constructor. simpl. tauto.
  - apply (H monday); [left; reflexivity | exact Hout].
Defined.

(** The toast of a request that exceeds the quota. *)
Lemma create_toasts_witness :
  toasts (snd (createIn (flatP1_2A "2024-01-05") mondayWednesday)) =
  [toast_error "Esta vivienda ya ha alcanzado el límite de 2 reservas esta semana"].
Proof.
  destruct (create_toasts parseISO_calendar toUpperCase_ascii mondayWednesday
              (flatP1_2A "2024-01-05")) as (_ & H & _).
  apply (H WeeklyQuotaExceeded); [discriminate | reflexivity].
Defined.

(** The success toast of X's cancellation. *)
Lemma cancel_toasts_witness :
  exists ts,
    toasts (snd (cancelReservation "r1" (mondayOfX userX))) = ([] ++ ts)%list /\
    In (toast_success "Reserva cancelada con éxito") ts.
Proof.
  destruct (cancel_toasts (mondayOfX userX) "r1") as (ts & E & _ & H).
  exists ts. split; [exact E |].
  apply H. exists userX, monday, (docId 0). repeat split.
Defined.

(** A date that is no date: counted nowhere, and never over the quota. *)
Lemma unparsable_date_is_never_counted_witness :
  countIn [monday; wednesday] "P1" "2" "A" "pronto" = 0%nat /\
  fst (createIn (flatP1_2A "pronto") mondayWednesday) <> Throw WeeklyQuotaExceeded.
Proof.
  destruct (unparsable_date_is_never_counted parseISO_calendar toUpperCase_ascii)
    as (H0 & _ & Hq).
  split.
  - apply H0. reflexivity.
  - apply Hq. reflexivity.
Defined.

(** Monday and Sunday of one week give the same count. *)
Lemma count_same_week_witness :
  countIn [monday; wednesday; nextMonday] "P1" "2" "A" "2024-01-01" =
  countIn [monday; wednesday; nextMonday] "P1" "2" "A" "2024-01-07".
Proof.
  apply (count_same_week parseISO_calendar toUpperCase_ascii); reflexivity.
Defined.

(** The cache in the other order. *)
Lemma cache_order_is_irrelevant_witness :
  countIn [monday; wednesday] "P1" "2" "A" "2024-01-05" =
  countIn [wednesday; monday] "P1" "2" "A" "2024-01-05".
Proof.
  destruct (cache_order_is_irrelevant parseISO_calendar toUpperCase_ascii
              [monday; wednesday] [wednesday; monday]) as [H _].
  - apply perm_swap.
  - apply H.
Defined.

(** The flat's second reservation of the week raises its count from 1 to 2. *)
Lemma accepted_create_counts_once_witness :
  weekly parseISO_calendar toUpperCase_ascii (flatP1_2A "2024-01-03")
    (snd (createIn (flatP1_2A "2024-01-03") (mondayOfX userX))) = 2%nat.
Proof.
  unfold createIn.
  rewrite (accepted_create_counts_once parseISO_calendar toUpperCase_ascii
             (mondayOfX userX) (flatP1_2A "2024-01-03") userX (docId 1) 1704240000000);
    reflexivity.
Defined.

(** A mount over Monday's reservation with the listing down. *)
Lemma mount_loads_cache_witness :
  reservations (mountProvider [monday] listingDown (Some userX)) = [] /\
  reservations (mountProvider [monday] serving (Some userX)) = [monday].
Proof.
  destruct (mount_loads_cache parseISO_calendar toUpperCase_ascii
              [monday] listingDown (Some userX)) as (_ & _ & _ & Hdown & _).
  destruct (mount_loads_cache parseISO_calendar toUpperCase_ascii
              [monday] serving (Some userX)) as (_ & _ & Hup & _).
  split.
  - apply (Hdown "unavailable"). reflexivity.
  - apply (Hup (docId 0)). reflexivity.
Defined.

(** A sign-up that is refused because the e-mail is taken. *)
Lemma auth_calls_rethrow_witness :
  fst (Auth.signUp "a@b.c" "secret"
         (Auth.initial (Auth.refusing "auth/email-already-in-use"))) =
    Auth.Rejected (Auth.mkAuthError "auth/email-already-in-use") /\
  Auth.toasts (snd (Auth.signUp "a@b.c" "secret"
                      (Auth.initial (Auth.refusing "auth/email-already-in-use")))) =
    [toast_error "Este email ya está registrado"].
Proof.
  destruct (auth_calls_rethrow
              (Auth.initial (Auth.refusing "auth/email-already-in-use"))
              "a@b.c" "secret") as ((_ & _ & _ & _ & H) & _).
  apply (H (Auth.mkAuthError "auth/email-already-in-use")). reflexivity.
Defined.
